(** * SUDEPmonitor: cache, date keys and windowed statistics

    A shallow embedding of the three Python modules of the repository
    ([sudep.py], [sudep_HRV.py], [sudep_pdf.py]) and the properties of the
    natural-language specification that can be checked against them.

    Conventions of the embedding.
    - Python exceptions are values of [Py.exn]; a call that may raise
      returns [Py.result A].
    - A one-dimensional float array is a [list R]: IEEE doubles are
      idealised as real numbers.  Reductions over an empty axis (NaN in
      numpy) and divisions by zero (inf in numpy) are outside this
      idealisation; the theorems about values assume a positive window.
      Rounding is not modelled, so the theorems about values state only
      what rounding leaves alone: which formula is computed on which
      samples, how many values there are, which value is selected, the
      sign of a sum of squares, and zeros that are exact.
    - A two-dimensional array is [np.array2]: its rows together with its
      column count, so that arrays with no row keep their shape.
    - The local cache is a flat directory [Users] of regular files. *)

From Stdlib Require Import ZArith List String Ascii Reals Lra Lia.
From Stdlib Require Import Sorting.Sorted Sorting.Permutation.
From stdpp Require Import base gmap strings.
Import ListNotations.

Set Warnings "-register-all".
Local Open Scope Z_scope.

(** ** Python values shared by the three modules *)

Module Py.

(** The exceptions the modelled code can raise. *)
Inductive exn : Type :=
| KeyError (key : string)
| ValueError
| TypeError
| IndexError
| IOError
| OSError
| AttributeError.

Definition result (A : Type) : Type := (exn + A)%type.

Definition ok {A : Type} (a : A) : result A := inr a.
Definition raise {A : Type} (e : exn) : result A := inl e.

Definition bind {A B : Type} (c : result A) (k : A -> result B) : result B :=
  match c with
  | inl e => inl e
  | inr a => k a
  end.

(** [for x in l: ys.append(f(x))], stopping at the first exception. *)
Fixpoint mapM {A B : Type} (f : A -> result B) (l : list A) : result (list B) :=
  match l with
  | [] => ok []
  | a :: l' =>
      bind (f a) (fun b => bind (mapM f l') (fun bs => ok (b :: bs)))
  end.

(** A slice bound [i] of a sequence of length [len], as [slice.indices]
    normalises it for a step of one. *)
Definition slice_bound (len i : Z) : Z :=
  if i <? 0 then Z.max (i + len) 0 else Z.min i len.

(** [l[start:stop]] on a sequence. *)
Definition slice {A : Type} (l : list A) (start stop : Z) : list A :=
  let len := Z.of_nat (length l) in
  let a := slice_bound len start in
  let b := slice_bound len stop in
  firstn (Z.to_nat (b - a)) (skipn (Z.to_nat a) l).

(** [range(n)] as integers. *)
Definition range (n : Z) : list Z := map Z.of_nat (seq 0 (Z.to_nat n)).

(** [l[start:]] on a sequence: the stop bound is the length. *)
Definition slice_from {A : Type} (l : list A) (start : Z) : list A :=
  slice l start (Z.of_nat (length l)).

End Py.

Notation "'let*' x ':=' c 'in' k" := (Py.bind c (fun x => k))
  (at level 10, x pattern, c at level 100, k at level 200).

(** ** The numpy operations the sources call *)

Module np.
Import Py.

(** A two-dimensional array: [a_ncols] columns, one list per row. *)
Record array2 (A : Type) : Type := Array2 {
  a_ncols : nat;
  a_rows : list (list A)
}.
Arguments Array2 {A} _ _.
Arguments a_ncols {A} _.
Arguments a_rows {A} _.

Definition a_nrows {A : Type} (a : array2 A) : nat := length (a_rows a).

(** [np.mgrid[0:n, 0:m]]: the row-index grid and the column-index grid,
    both of shape [(n, m)].  A negative extent makes numpy allocate an
    array of negative dimension, which raises [ValueError]. *)
Definition mgrid (n m : Z) : result (array2 Z * array2 Z) :=
  if (n <? 0) || (m <? 0) then raise ValueError
  else ok (Array2 (Z.to_nat m) (map (fun i => map (fun _ => i) (range m)) (range n)),
           Array2 (Z.to_nat m) (map (fun _ => range m) (range n))).

(** [np.sum(grids, axis=0)] on the pair of grids. *)
Definition sum_grids (g : array2 Z * array2 Z) : array2 Z :=
  Array2 (a_ncols (fst g))
    (map (fun rr => map (fun ab => fst ab + snd ab) (combine (fst rr) (snd rr)))
         (combine (a_rows (fst g)) (a_rows (snd g)))).

(** Column [j] of the rows [rs]. *)
Definition column {A : Type} (rs : list (list A)) (j : nat) : list A :=
  flat_map (fun r => match nth_error r j with Some v => [v] | None => [] end) rs.

(** [np.transpose] of a two-dimensional array. *)
Definition transpose {A : Type} (a : array2 A) : array2 A :=
  Array2 (a_nrows a) (map (column (a_rows a)) (seq 0 (a_ncols a))).

(** [v[i]] for one integer index: negative indices count from the end,
    anything outside [-len, len) raises [IndexError]. *)
Definition item {A : Type} (v : list A) (i : Z) : result A :=
  let len := Z.of_nat (length v) in
  let j := if i <? 0 then i + len else i in
  if (j <? 0) || (len <=? j) then raise IndexError
  else match nth_error v (Z.to_nat j) with
       | Some x => ok x
       | None => raise IndexError
       end.

(** [v[indices]] for an integer index array: same shape as [indices]. *)
Definition take {A : Type} (v : list A) (indices : array2 Z) : result (array2 A) :=
  let* rows := mapM (mapM (item v)) (a_rows indices) in
  ok (Array2 (a_ncols indices) rows).

(** [a[start:stop]]: a slice of the rows. *)
Definition rows_slice {A : Type} (a : array2 A) (start stop : Z) : array2 A :=
  Array2 (a_ncols a) (slice (a_rows a) start stop).

Local Open Scope R_scope.

Definition sum (v : list R) : R := fold_right Rplus 0 v.

(** [np.mean(v)]. *)
Definition mean (v : list R) : R := sum v / INR (length v).

(** [np.var(v, ddof=ddof)]: mean squared deviation, the divisor being
    [max(len(v) - ddof, 0)]. *)
Definition var (ddof : nat) (v : list R) : R :=
  let m := mean v in
  sum (map (fun a => (a - m) * (a - m)) v) / INR (length v - ddof).

(** [np.std(v, ddof=ddof)]. *)
Definition std (ddof : nat) (v : list R) : R := sqrt (var ddof v).

(** [np.mean(a, axis=1)]. *)
Definition mean_axis1 (a : array2 R) : list R := map mean (a_rows a).

(** [np.std(a, axis=1)] with the default [ddof=0]. *)
Definition std_axis1 (a : array2 R) : list R := map (std 0) (a_rows a).

(** [np.var(a, axis=0)] with the default [ddof=0]. *)
Definition var_axis0 (a : array2 R) : list R :=
  map (var 0) (a_rows (transpose a)).

(** [np.diff(v)] of a vector: [v[1:] - v[:-1]]. *)
Definition diff1 (v : list R) : list R :=
  map (fun ab => snd ab - fst ab) (combine v (tl v)).

(** [np.diff(a)]: first difference along the last axis. *)
Definition diff (a : array2 R) : array2 R :=
  Array2 (Nat.pred (a_ncols a)) (map diff1 (a_rows a)).

(** Elementwise [f(a, b)] on two arrays of one shape. *)
Definition zip2 (f : R -> R -> R) (a b : array2 R) : array2 R :=
  Array2 (a_ncols a)
    (map (fun rr => map (fun ab => f (fst ab) (snd ab)) (combine (fst rr) (snd rr)))
         (combine (a_rows a) (a_rows b))).

(** Elementwise [f(u, v)] on two vectors of one length. *)
Definition zip1 (f : R -> R -> R) (u v : list R) : list R :=
  map (fun ab => f (fst ab) (snd ab)) (combine u v).

(** [f(a, np.transpose([c]))]: the column vector [c] broadcast along
    the rows of [a]. *)
Definition broadcast_col (f : R -> R -> R) (a : array2 R) (c : list R) : array2 R :=
  Array2 (a_ncols a)
    (map (fun rc => map (fun e => f e (snd rc)) (fst rc)) (combine (a_rows a) c)).

(** [v == 0], elementwise. *)
Definition eq0 (v : list R) : list bool :=
  map (fun s => if Req_dec_T s 0 then true else false) v.

(** [v[mask] = c] for a boolean mask of the length of [v]. *)
Definition mask_set (v : list R) (mask : list bool) (c : R) : list R :=
  map (fun sb => if (snd sb : bool) then c else fst sb) (combine v mask).

(** [np.zeros(k)]. *)
Definition zeros (k : Z) : result (list R) :=
  if k <? 0 then raise ValueError else ok (repeat 0 (Z.to_nat k)).

(** [np.append(u, b)] where [b] is a boolean array: the result is a
    float array, [True] becoming 1.0 and [False] 0.0. *)
Definition append_bools (u : list R) (b : list bool) : list R :=
  u ++ map (fun x : bool => if x then 1 else 0) b.

(** [v.astype(bool)]: nonzero is [True]. *)
Definition astype_bool (v : list R) : list bool :=
  map (fun x => if Req_dec_T x 0 then false else true) v.

(** [np.max(v)] and [np.min(v)]: a reduction without identity, which
    raises [ValueError] on an empty array. *)
Definition amax (v : list R) : result R :=
  match v with
  | [] => raise ValueError
  | a :: v' => ok (fold_left Rmax v' a)
  end.

Definition amin (v : list R) : result R :=
  match v with
  | [] => raise ValueError
  | a :: v' => ok (fold_left Rmin v' a)
  end.

(** [np.mean(a, axis=0)] of a two-dimensional array. *)
Definition mean_axis0 (a : array2 R) : list R :=
  map mean (a_rows (transpose a)).

End np.

(** ** sudep_HRV.py *)

Module sudep_HRV.
Import Py.

(** The windowing of [SD]: [beats[indices]] where
    [indices[i][j] = i + j] for [i < n], [j < num_points]. *)
Definition windowed_beats (beats : list R) (num_points : Z) : result (np.array2 R) :=
  let signal_length := Z.of_nat (length beats) in
  let n := signal_length - num_points + 1 in
  let* grids := np.mgrid n num_points in
  let indices := np.sum_grids grids in
  np.take beats indices.

Definition means (x y : np.array2 R) : list R * list R :=
  (np.mean_axis1 x, np.mean_axis1 y).

Definition SD1 (x y : np.array2 R) (meanx meany : list R) : list R :=
  let mean := np.zip1 Rminus meany meanx in
  map (fun s => s / sqrt 2)%R
      (np.std_axis1 (np.broadcast_col Rplus (np.zip2 Rminus x y) mean)).

Definition SD2 (x y : np.array2 R) (meanx meany : list R) : list R :=
  let mean := np.zip1 Rplus meanx meany in
  map (fun s => s / sqrt 2)%R
      (np.std_axis1 (np.broadcast_col Rminus (np.zip2 Rplus x y) mean)).

Definition SD (beats : list R) (num_points : Z) : result (list R * list R) :=
  let signal_length := Z.of_nat (length beats) in
  let n := signal_length - num_points + 1 in
  let* windowed := windowed_beats beats num_points in
  let x := np.rows_slice windowed 0 (n - 1) in
  let y := np.rows_slice windowed 1 n in
  let '(meanx, meany) := means x y in
  ok (SD1 x y meanx meany, SD2 x y meanx meany).

(** What [CSI] is called with: the [heart_data] dictionary of a session
    (its ['heart_rate'] array is what [CSI] reads) or a vector of beat
    intervals. *)
Inductive heart_arg : Type :=
| HeartData (times heart_rate : list R)
| BeatVector (beats : list R).

(** The zero clamp of [CSI]: [SD2[SD1 == 0] = 1], then
    [SD1[SD1 == 0] = 1]. *)
Definition clamp_SD2 (sd1 sd2 : list R) : list R := np.mask_set sd2 (np.eq0 sd1) 1%R.
Definition clamp_SD1 (sd1 : list R) : list R := np.mask_set sd1 (np.eq0 sd1) 1%R.

(** A dictionary passed with [from_watch=False], or a vector passed
    with [from_watch=True], is a type error of the caller. *)
Definition CSI (heart_data : heart_arg) (num_points : Z) (from_watch : bool)
  : result (list R) :=
  let* beats :=
    match from_watch, heart_data with
    | true, HeartData _ heart_rate => ok (map (fun h => 60 / h)%R heart_rate)
    | false, BeatVector beats => ok beats
    | _, _ => raise TypeError
    end in
  let* sd := SD beats num_points in
  let sd2 := clamp_SD2 (fst sd) (snd sd) in
  let sd1 := clamp_SD1 (fst sd) in
  ok (np.zip1 Rdiv sd2 sd1).

(** [plot_CSI]: the data handed to [ax.plot], [times[n:]] against
    [SD2/SD1] (without the clamp of [CSI]); [plot] raises [ValueError]
    when the two differ in length. *)
Definition plot_CSI (times beats : list R) (n : Z) : result (list R * list R) :=
  let* sd := SD beats n in
  let x := slice_from times n in
  let y := np.zip1 Rdiv (snd sd) (fst sd) in
  if (length x =? length y)%nat then ok (x, y) else raise ValueError.

(** [plot_lorenz]: the data handed to [ax.plot], [beats[0:-1]] against
    [beats[1:]]. *)
Definition plot_lorenz (beats : list R) : result (list R * list R) :=
  let x := slice beats 0 (-1) in
  let y := slice_from beats 1 in
  if (length x =? length y)%nat then ok (x, y) else raise ValueError.

End sudep_HRV.

(** ** sudep_pdf.py *)

Module sudep_pdf.
Import Py.

(** The windows of [windowed_sample_variance]: [signal[indices]] with
    [indices] of shape [(window, n)], column [i] being window [i]. *)
Definition windowed_signal (signal : list R) (window : Z) : result (np.array2 R) :=
  let* grids := np.mgrid (Z.of_nat (length signal) - window + 1) window in
  let indices := np.transpose (np.sum_grids grids) in
  np.take signal indices.

Definition windowed_sample_variance (signal : list R) (window : Z) : result (list R) :=
  let* windows := windowed_signal signal window in
  ok (np.var_axis0 (np.diff windows)).

Definition find_high_variance (var : list R) (THRESH : R) : list bool :=
  map (fun v => if Rgt_dec v THRESH then true else false) var.

(** The mask [is_above_thresh] that [mark_high_var] builds and then
    uses to index [time] and [signal]; [find_high_variance] is called
    with its default threshold of 1. *)
Definition is_above_thresh (signal : list R) (window : Z) : result (list bool) :=
  let* var := windowed_sample_variance signal window in
  let* buffer := np.zeros (window - 1) in
  ok (np.astype_bool (np.append_bools buffer (find_high_variance var 1%R))).

(** The outcome of a function that divides integers: Python 2's [/]
    on integers is the floor division and raises [ZeroDivisionError], an
    exception none of the other functions can raise. *)
Inductive div_result (A : Type) : Type :=
| ZeroDivisionError
| Divided (r : result A).
Arguments ZeroDivisionError {A}.
Arguments Divided {A} _.

(** [moving_average(signal, n)] on a two-dimensional signal, one row per
    axis: [signal[0:, indices]] indexes every row by the grid
    [indices[j][i] = i + j] of shape [(n, len(signal[0]) / n)], and the
    mean is taken over [j]. *)
Definition moving_average (signal : np.array2 R) (n : Z) : div_result (np.array2 R) :=
  match np.a_rows signal with
  | [] => Divided (raise IndexError)
  | row0 :: _ =>
      if n =? 0 then ZeroDivisionError
      else Divided (
        let* grids := np.mgrid (Z.of_nat (length row0) / n) n in
        let indices := np.transpose (np.sum_grids grids) in
        let* rows := mapM (fun row =>
                             let* picked := np.take row indices in
                             ok (np.mean_axis0 picked))
                          (np.a_rows signal) in
        ok (np.Array2 (np.a_ncols indices) rows))
  end.

(** [variance_statistics]: the largest, the smallest, the mean and the
    variance of the windowed variances. *)
Definition variance_statistics (signal : list R) (window : Z)
  : result (R * R * R * R) :=
  let* var := windowed_sample_variance signal window in
  let* max_var := np.amax var in
  let* min_var := np.amin var in
  let mean_var := np.mean var in
  let var_var := np.var 0 var in
  ok (max_var, min_var, mean_var, var_var).

End sudep_pdf.

(** ** sudep.py *)

Module sudep.
Import Py.

(** A decoded JSON value, as [requests]' [.json()] returns it.  A JSON
    object is a Python dictionary: a finite map whose iteration order is
    the map's own. *)
Inductive json : Type :=
| JNull
| JBool (b : bool)
| JNum (x : R)
| JStr (s : string)
| JArr (l : list json)
| JObj (m : gmap string json).

(** [d[key]] for a string key: only a dictionary can be indexed so. *)
Definition getitem (d : json) (key : string) : result json :=
  match d with
  | JObj m => match m !! key with
              | Some v => ok v
              | None => raise (KeyError key)
              end
  | _ => raise TypeError
  end.

(** [key in d] for a string [key]: key membership for a dictionary,
    element membership for a list, substring test for a string. *)
Definition contains (d : json) (key : string) : result bool :=
  match d with
  | JObj m => ok (bool_decide (is_Some (m !! key)))
  | JArr l => ok (existsb (fun j => match j with
                                    | JStr s => String.eqb s key
                                    | _ => false
                                    end) l)
  | JStr s => ok (match String.index 0 key s with Some _ => true | None => false end)
  | _ => raise TypeError
  end.

(** [d.keys()] of a dictionary. *)
Definition keys (m : gmap string json) : list string :=
  map fst (map_to_list m).

(** ** Date tokens [ddMMyyhhmmss] *)

(** [s[start:stop]] on a string. *)
Definition str_slice (s : string) (start stop : Z) : string :=
  string_of_list_ascii (slice (list_ascii_of_string s) start stop).

(** Python compares tuples of strings lexicographically, strings by
    their characters' codes; the key tuples below all have six
    components. *)
Fixpoint tuple_compare (k1 k2 : list string) : comparison :=
  match k1, k2 with
  | [], [] => Eq
  | [], _ :: _ => Lt
  | _ :: _, [] => Gt
  | a :: k1', b :: k2' =>
      match String.compare a b with
      | Eq => tuple_compare k1' k2'
      | c => c
      end
  end.

(** The sort key of [_date_sort]:
    [(x[4:6], x[2:4], x[0:2], x[6:8], x[8:10], x[10:12])]. *)
Definition date_key (x : string) : list string :=
  [str_slice x 4 6; str_slice x 2 4; str_slice x 0 2;
   str_slice x 6 8; str_slice x 8 10; str_slice x 10 12].

(** [key(a) <= key(b)], the order [_date_sort] sorts by. *)
Definition date_leb (a b : string) : bool :=
  match tuple_compare (date_key a) (date_key b) with
  | Gt => false
  | _ => true
  end.

(** [list.sort(key=...)] is a stable sort, so its result is that of any
    stable sort; here insertion from the right, an element going before
    the first one whose key is not smaller than its own. *)
Fixpoint sort_insert (leb : string -> string -> bool) (x : string) (l : list string)
  : list string :=
  match l with
  | [] => [x]
  | y :: l' => if leb x y then x :: y :: l' else y :: sort_insert leb x l'
  end.

Fixpoint list_sort (leb : string -> string -> bool) (l : list string) : list string :=
  match l with
  | [] => []
  | x :: l' => sort_insert leb x (list_sort leb l')
  end.

Definition _date_sort (dates : list string) : list string :=
  list_sort date_leb dates.

Definition _lex (date : string) : string :=
  let characters := ["."; "."; " "; ":"; ":"; ""]%string in
  fold_left (fun lexed_date ic =>
               let iDate := 2 * Z.of_nat (fst ic) in
               (lexed_date ++ (str_slice date iDate (iDate + 2) ++ snd ic))%string)
            (combine (seq 0 (length characters)) characters) ""%string.

Definition _lex_multiple (dates : gmap string json) : list string :=
  _date_sort (map _lex (keys dates)).

(** A 12-digit date token. *)
Definition is_digit (c : ascii) : bool :=
  (48 <=? nat_of_ascii c)%nat && (nat_of_ascii c <=? 57)%nat.

Definition is_date_token (s : string) : bool :=
  (String.length s =? 12)%nat && forallb is_digit (list_ascii_of_string s).

(** ** Data structures *)

Record Profile : Type := mkProfile {
  dob : json;
  gender : json;
  height : json;
  weight : json
}.

(** [np.array(v)]: a list of numbers becomes a float array; any other
    value is wrapped as it is. *)
Inductive ndarray : Type :=
| FloatArray (v : list R)
| ObjectArray (j : json).

Fixpoint numbers (l : list json) : option (list R) :=
  match l with
  | [] => Some []
  | JNum x :: l' => match numbers l' with
                    | Some v => Some (x :: v)
                    | None => None
                    end
  | _ :: _ => None
  end.

Definition np_array (j : json) : ndarray :=
  match j with
  | JArr l => match numbers l with
              | Some v => FloatArray v
              | None => ObjectArray j
              end
  | _ => ObjectArray j
  end.

(** [accel_data] and [heart_data] are the string ['Empty'] when the
    session has no such channel: [None] here. *)
Record Session : Type := mkSession {
  accel_sampling_freq : json;
  duration : json;
  accel_data : option (ndarray * ndarray * ndarray);
  heart_data : option (ndarray * ndarray)
}.

(** What [get_session_for] returns: one session for a session name, a
    dictionary for a list of names or for ['all']. *)
Inductive sessions_result : Type :=
| OneSession (s : Session)
| SessionDict (m : gmap string Session).

Record User : Type := mkUser {
  user_name : string;
  profile : Profile;
  events : json;
  sessions : sessions_result;
  dates : list string
}.

Definition base_url : string := "https://sudepmonitor.firebaseio.com/".

(** ** Download from database *)

Section Remote.

(** [requests.get(url).json()]: the database as a function of the
    URL; a failed request or an undecodable body raises. *)
Variable requests_get_json : string -> result json.

(** The module-level [user_list], downloaded once at import. *)
Variable user_list : json.

Definition download_json_data_from (url : string) : result json :=
  let* json_data := requests_get_json url in
  match json_data with
  | JNull => ok (JObj ∅)
  | _ => ok json_data
  end.

Definition get_user_list : result json :=
  download_json_data_from (base_url ++ "UserList.json").

(** [profile == None] never holds for a decoded value that
    [download_json_data_from] returns, [None] being replaced there. *)
Definition _get_individual_profile_for (user : string) : result json :=
  let url := (base_url ++ user ++ "/MetaData/Profile.json")%string in
  let* profile := download_json_data_from url in
  match profile with
  | JNull => ok (JObj ∅)
  | _ => ok profile
  end.

(** [for user in user_list] over the module-level value: the elements
    of a list, the keys of a dictionary; each is then concatenated to
    a URL, which raises unless it is a string. *)
Definition iter_users : result (list string) :=
  match user_list with
  | JArr l => mapM (fun j => match j with
                             | JStr s => ok s
                             | _ => raise TypeError
                             end) l
  | JObj m => ok (keys m)
  | JStr s => ok (map (fun c => String c EmptyString) (list_ascii_of_string s))
  | _ => raise TypeError
  end.

(** [get_profile_for] at a string argument, the way [Profile] calls
    it: ['all'] selects every user of [user_list]. *)
Definition get_profile_for (user : string) : result json :=
  if String.eqb user "all" then
    let* users := iter_users in
    let* profiles :=
      List.fold_left (fun acc u =>
                   let* profiles := acc in
                   let* p := _get_individual_profile_for u in
                   ok (<[u := p]> profiles))
                users (ok (∅ : gmap string json)) in
    ok (JObj profiles)
  else _get_individual_profile_for user.

Definition Profile_init (name : string) : result Profile :=
  let* profile := get_profile_for name in
  let* dob := getitem profile "Date of Birth" in
  let* gender := getitem profile "Gender" in
  let* height := getitem profile "Height (m)" in
  let* weight := getitem profile "Weight (kg)" in
  ok (mkProfile dob gender height weight).

(** [get_events_for]: the events as downloaded when [event_type] is set,
    their keys (here as an array of strings) otherwise; [.keys()] exists
    on a dictionary only. *)
Definition get_events_for (user : string) (event_type : bool) : result json :=
  let url := (base_url ++ user ++ "/MetaData/Events.json")%string in
  let url := if event_type then url else (url ++ "?shallow=true")%string in
  let* user_events := download_json_data_from url in
  if event_type then ok user_events
  else match user_events with
       | JObj m => ok (JArr (map JStr (keys m)))
       | _ => raise AttributeError
       end.

Definition _convert_accel_data_to_array_for (session : json)
  : result (option (ndarray * ndarray * ndarray)) :=
  let* present := contains session "Accelerometer data" in
  if present then
    let* accel := getitem session "Accelerometer data" in
    let* x := getitem accel "x" in
    let* y := getitem accel "y" in
    let* z := getitem accel "z" in
    ok (Some (np_array x, np_array y, np_array z))
  else ok None.

Definition _convert_heart_data_to_array_for (session : json)
  : result (option (ndarray * ndarray)) :=
  let* present := contains session "Heartrate data" in
  if present then
    let* heart_data := getitem session "Heartrate data" in
    let* times := getitem heart_data "Times" in
    let* heart_rate := getitem heart_data "Heartrate" in
    ok (Some (np_array times, np_array heart_rate))
  else ok None.

Definition Session_init (session : json) : result Session :=
  let* accel_sampling_freq := getitem session "Accelerometer sampling frequency" in
  let* duration := getitem session "Duration" in
  let* accel_data := _convert_accel_data_to_array_for session in
  let* heart_data := _convert_heart_data_to_array_for session in
  ok (mkSession accel_sampling_freq duration accel_data heart_data).

Definition _get_single (session for_user : string) : result Session :=
  let url := (base_url ++ for_user ++ "/" ++ session ++ ".json")%string in
  let* data := download_json_data_from url in
  Session_init data.

(** [del user_dates['MetaData']] raises [KeyError] when the key is
    absent, and [TypeError] when the response is not a dictionary. *)
Definition get_session_dates_for (user : string) (readable : bool)
  : result (list string) :=
  let url := (base_url ++ user ++ ".json?shallow=true")%string in
  let* user_dates := download_json_data_from url in
  match user_dates with
  | JObj m =>
      match m !! "MetaData"%string with
      | None => raise (KeyError "MetaData")
      | Some _ =>
          let user_dates := delete "MetaData"%string m in
          if readable then ok (_lex_multiple user_dates)
          else ok (_date_sort (keys user_dates))
      end
  | _ => raise TypeError
  end.

(** The [sessions] argument of [get_session_for]. *)
Inductive sessions_arg : Type :=
| SessionName (s : string)
| SessionList (l : list string).

Definition get_session_for (user : string) (sessions : sessions_arg)
  : result sessions_result :=
  let* sessions :=
    match sessions with
    | SessionName s =>
        if String.eqb s "all" then
          let* ds := get_session_dates_for user false in ok (SessionList ds)
        else ok sessions
    | SessionList _ => ok sessions
    end in
  match sessions with
  | SessionList l =>
      let* user_data :=
        List.fold_left (fun acc session =>
                     let* user_data := acc in
                     let* s := _get_single session user in
                     ok (<[session := s]> user_data))
                  l (ok (∅ : gmap string Session)) in
      ok (SessionDict user_data)
  | SessionName s =>
      let* one := _get_single s user in ok (OneSession one)
  end.

Definition User_init (name : string) : result User :=
  let* profile := Profile_init name in
  let* events := get_events_for name true in
  let* sessions := get_session_for name (SessionName "all") in
  let* dates := get_session_dates_for name false in
  ok (mkUser name profile events sessions dates).

End Remote.

(** ** Local cache: the folder [Users] *)

(** The durable storage the module touches: the directory [Users] of
    the working directory, absent ([None]) or holding regular files by
    name.  Paths are resolved for single components under [Users/]
    only. *)
Definition filesystem (blob : Type) : Type := option (gmap string blob).

Definition io (blob A : Type) : Type :=
  filesystem blob -> result A * filesystem blob.

Definition io_ret {blob A : Type} (a : A) : io blob A := fun fs => (ok a, fs).

Definition io_lift {blob A : Type} (r : result A) : io blob A := fun fs => (r, fs).

Definition io_bind {blob A B : Type} (c : io blob A) (k : A -> io blob B) : io blob B :=
  fun fs => match c fs with
            | (inl e, fs') => (inl e, fs')
            | (inr a, fs') => k a fs'
            end.

Notation "'let!' x ':=' c 'in' k" := (io_bind c (fun x => k))
  (at level 10, x pattern, c at level 100, k at level 200).

Fixpoint strip_prefix (p s : string) : option string :=
  match p, s with
  | EmptyString, _ => Some s
  | String a p', String b s' => if Ascii.eqb a b then strip_prefix p' s' else None
  | String _ _, EmptyString => None
  end.

(** A name that denotes an entry of a directory: not empty, not a dot
    entry, no separator and no NUL. *)
Definition is_component (s : string) : bool :=
  negb (String.eqb s "") && negb (String.eqb s ".") && negb (String.eqb s "..")
  && forallb (fun c => negb (Ascii.eqb c "/") && negb (Ascii.eqb c "000"))
             (list_ascii_of_string s).

Section Cache.

Variable requests_get_json : string -> result json.
Variable user_list : json.

(** [cPickle]: the serialised form, [cPickle.dump(user, file, 2)] and
    [cPickle.load(file)]. *)
Variable blob : Type.
Variable cPickle_dump : User -> blob.
Variable cPickle_load : blob -> result User.

Definition os_path_exists_Users : io blob bool :=
  fun fs => (ok (bool_decide (is_Some fs)), fs).

Definition os_makedirs_Users : io blob unit :=
  fun fs => match fs with
            | None => (ok tt, Some ∅)
            | Some _ => (raise OSError, fs)
            end.

Definition os_listdir_Users : io blob (list string) :=
  fun fs => match fs with
            | Some files => (ok (map fst (map_to_list files)), fs)
            | None => (raise OSError, fs)
            end.

(** [open(path, 'wb')] followed by the write of [data]. *)
Definition open_wb (path : string) (data : blob) : io blob unit :=
  fun fs => match strip_prefix "Users/" path, fs with
            | Some f, Some files =>
                if is_component f then (ok tt, Some (<[f := data]> files))
                else (raise IOError, fs)
            | _, _ => (raise IOError, fs)
            end.

(** [open(path, 'rb')] followed by the read of the whole file. *)
Definition open_rb (path : string) : io blob blob :=
  fun fs => match strip_prefix "Users/" path, fs with
            | Some f, Some files =>
                match files !! f with
                | Some data => (ok data, fs)
                | None => (raise IOError, fs)
                end
            | _, _ => (raise IOError, fs)
            end.

(** The [print] calls of the source are not modelled. *)
Definition _look_for_and_create_users_folder : io blob unit :=
  let! present := os_path_exists_Users in
  if negb present then os_makedirs_Users else io_ret tt.

Definition _is_file_in_directory (name : string) : io blob bool :=
  let file_name := (name ++ ".pkl")%string in
  let! file_list := os_listdir_Users in
  if existsb (String.eqb file_name) file_list then io_ret true else io_ret false.

Definition save (user : User) (update : bool) : io blob unit :=
  let! _ := _look_for_and_create_users_folder in
  let file_path := ("Users/" ++ user_name user ++ ".pkl")%string in
  let write := open_wb file_path (cPickle_dump user) in
  if negb update then
    let! present := _is_file_in_directory (user_name user) in
    if present then io_ret tt else write
  else write.

Definition load (user_name : string) : io blob User :=
  let file_path := ("Users/" ++ user_name ++ ".pkl")%string in
  let! data := open_rb file_path in
  io_lift (cPickle_load data).

(** [get_user] returns [None] when the user is neither cached nor in
    [user_list]. *)
Definition get_user (user_name : string) (reload : bool) : io blob (option User) :=
  let! _ := _look_for_and_create_users_folder in
  let! present := _is_file_in_directory user_name in
  if present && negb reload then
    let! user := load user_name in io_ret (Some user)
  else
    let! known := io_lift (contains user_list user_name) in
    if known then
      let! user := io_lift (User_init requests_get_json user_list user_name) in
      let! _ := save user true in
      io_ret (Some user)
    else io_ret None.

End Cache.

Arguments os_path_exists_Users {blob}.
Arguments os_makedirs_Users {blob}.
Arguments os_listdir_Users {blob}.
Arguments open_wb {blob}.
Arguments open_rb {blob}.
Arguments _look_for_and_create_users_folder {blob}.
Arguments _is_file_in_directory {blob}.
Arguments save {blob}.
Arguments load {blob}.
Arguments get_user _ _ {blob}.

End sudep.

(** ** sudep_pdf.py: the functions that read a session *)

Module sudep_pdf_session.
Import Py.

(** [unpack_accel_from]: [session.accel_data['x']] and so on; the
    sentinel ['Empty'] is a string, which a string key cannot index. *)
Definition unpack_accel_from (session : sudep.Session)
  : result (sudep.ndarray * sudep.ndarray * sudep.ndarray) :=
  match sudep.accel_data session with
  | Some (x, y, z) => ok (x, y, z)
  | None => raise TypeError
  end.

End sudep_pdf_session.

(** ** The vocabulary of the specification *)

(** Window [i] of width [w] of a signal, in the words of the
    specification: the samples at the indices [i, i + w). *)
Definition window {A : Type} (v : list A) (w i : nat) : list A :=
  firstn w (skipn i v).

(** The dispersion formulas in the words of the specification, for a
    standard deviation of [ddof] delta degrees of freedom: [x_i] is window
    [i] of the beats and [y_i] window [i + 1]. *)
Definition spec_SD1 (ddof : nat) (beats : list R) (w i : nat) : R :=
  let x := window beats w i in
  let y := window beats w (S i) in
  let meanx := np.mean x in
  let meany := np.mean y in
  (np.std ddof (map (fun ab => (fst ab - snd ab) + (meany - meanx)) (combine x y))
   / sqrt 2)%R.

Definition spec_SD2 (ddof : nat) (beats : list R) (w i : nat) : R :=
  let x := window beats w i in
  let y := window beats w (S i) in
  let meanx := np.mean x in
  let meany := np.mean y in
  (np.std ddof (map (fun ab => (fst ab + snd ab) - (meanx + meany)) (combine x y))
   / sqrt 2)%R.

(** The order a boolean comparison decides. *)
Definition le_of (leb : string -> string -> bool) (a b : string) : Prop :=
  leb a b = true.

(** The instant a date names.  The docstring of [get_session_dates_for]
    gives the two forms of a date: the token [ddMMyyhhmmss] and the
    readable [dd.MM.yy hh:mm:ss].  [digit c] is the value of a decimal
    digit, [field_value] that of a run of digits and [two_digits s i]
    that of the two characters of [s] from position [i].  [token_time]
    and [readable_time] read the six fields at their places in the two
    forms and give the number [yyMMddhhmmss], which orders the dates of
    one century as the calendar does. *)
Definition digit (c : ascii) : N := (N_of_ascii c - 48)%N.

Definition field_value (s : string) : N :=
  fold_left (fun acc c => (10 * acc + digit c)%N) (list_ascii_of_string s) 0%N.

Definition two_digits (s : string) (i : nat) : N :=
  field_value (String.substring i 2 s).

Definition calendar_number (yy MM dd hh mm ss : N) : N :=
  (((((yy * 100 + MM) * 100 + dd) * 100 + hh) * 100 + mm) * 100 + ss)%N.

Definition token_time (token : string) : N :=
  calendar_number (two_digits token 4) (two_digits token 2) (two_digits token 0)
                  (two_digits token 6) (two_digits token 8) (two_digits token 10).

Definition readable_time (date : string) : N :=
  calendar_number (two_digits date 6) (two_digits date 3) (two_digits date 0)
                  (two_digits date 9) (two_digits date 12) (two_digits date 15).

(** A list of dates in the order of time, the most recent last. *)
Definition chronological (time : string -> N) (dates : list string) : Prop :=
  Sorted (fun a b => (time a <= time b)%N) dates.

(** [same_key k x]: the sort key of [x] is [k]. *)
Definition same_key (k : list string) (x : string) : bool :=
  match sudep.tuple_compare (sudep.date_key x) k with
  | Eq => true
  | _ => false
  end.

(** Lexicographic comparison of two rows of numbers. *)
Fixpoint lex_compare (u v : list N) : comparison :=
  match u, v with
  | [], [] => Eq
  | [], _ :: _ => Lt
  | _ :: _, [] => Gt
  | a :: u', b :: v' =>
      match N.compare a b with
      | Eq => lex_compare u' v'
      | c => c
      end
  end.

(** The ratio [CSI] takes at one index, after its clamp: [SD2 / SD1],
    both replaced by 1 where [SD1] is 0. *)
Definition clamp_ratio (s1 s2 : R) : R :=
  ((if Req_dec_T s1 0 then 1 else s2) / (if Req_dec_T s1 0 then 1 else s1))%R.

(** The files of [Users], none when the folder is missing. *)
Definition files_of {blob : Type} (fs : sudep.filesystem blob) : gmap string blob :=
  match fs with Some files => files | None => ∅ end.

(** The rows of a two-dimensional array all have its column count. *)
Definition rectangular {A : Type} (a : np.array2 A) : Prop :=
  Forall (fun row => length row = np.a_ncols a) (np.a_rows a).

(** ** Example data *)

(** A user with no session. *)
Definition example_user : sudep.User :=
  sudep.mkUser "SM36"
    (sudep.mkProfile (sudep.JStr "01.01.1990") (sudep.JStr "F")
                     (sudep.JNum 1.7) (sudep.JNum 60))
    (sudep.JObj ∅) (sudep.SessionDict ∅) [].

(** A database that answers every request with a JSON null. *)
Definition empty_database : string -> Py.result sudep.json :=
  fun _ => Py.ok sudep.JNull.

(** A database whose listing of every user holds the reserved key and
    three sessions: 15 June '23, 1 December '23 and 1 January '24. *)
Definition example_listing : gmap string sudep.json :=
  list_to_map [("MetaData", sudep.JBool true); ("011223120000", sudep.JBool true);
               ("010124120000", sudep.JBool true);
               ("150623080000", sudep.JBool true)]%string.

Definition example_database : string -> Py.result sudep.json :=
  fun _ => Py.ok (sudep.JObj example_listing).

(** A database with one user, [SM36], who has a profile, no event and
    one session, recorded on 1 December '23 without accelerometer data. *)
Definition recorded_profile : gmap string sudep.json :=
  list_to_map [("Date of Birth", sudep.JStr "01.01.1990"); ("Gender", sudep.JStr "F");
               ("Height (m)", sudep.JNum 1.7); ("Weight (kg)", sudep.JNum 60)]%string.

Definition recorded_session : gmap string sudep.json :=
  list_to_map
    [("Accelerometer sampling frequency", sudep.JNum 50);
     ("Duration", sudep.JNum 2);
     ("Heartrate data",
      sudep.JObj (list_to_map
                    [("Times", sudep.JArr [sudep.JNum 0; sudep.JNum 1]);
                     ("Heartrate", sudep.JArr [sudep.JNum 60; sudep.JNum 61])]))]%string.

Definition recorded_database (url : string) : Py.result sudep.json :=
  if String.eqb url "https://sudepmonitor.firebaseio.com/SM36/MetaData/Profile.json"
  then Py.ok (sudep.JObj recorded_profile)
  else if String.eqb url "https://sudepmonitor.firebaseio.com/SM36.json?shallow=true"
  then Py.ok (sudep.JObj (list_to_map [("MetaData", sudep.JBool true);
                                       ("011223120000", sudep.JBool true)]%string))
  else if String.eqb url "https://sudepmonitor.firebaseio.com/SM36/011223120000.json"
  then Py.ok (sudep.JObj recorded_session)
  else Py.ok sudep.JNull.

(** * Properties *)

(** ** Sliding windows *)

Section Windows.
Import Py.

Context {A : Type}.

Lemma window_length (v : list A) (w i : nat) :
  (i + w <= length v)%nat -> length (window v w i) = w.
Proof.
  intros H. unfold window. rewrite length_firstn, length_skipn. lia.
Qed.

Lemma window_nth (v : list A) (w i j : nat) :
  (j < w)%nat -> nth_error (window v w i) j = nth_error v (i + j).
Proof.
  intros H. unfold window.
  rewrite nth_error_firstn.
  destruct (Nat.ltb_spec j w); [|lia].
  apply nth_error_skipn.
Qed.

Lemma skipn_cons_nth (v : list A) (i : nat) (x : A) :
  nth_error v i = Some x -> skipn i v = x :: skipn (S i) v.
Proof.
  revert i. induction v as [|a v IH]; intros [|i] H; simpl in *; try discriminate.
  - now inversion H.
  - now apply IH.
Qed.

Lemma window_S (v : list A) (w i : nat) (x : A) :
  nth_error v i = Some x -> window v (S w) i = x :: window v w (S i).
Proof.
  intros H. unfold window. now rewrite (skipn_cons_nth _ _ _ H).
Qed.

Lemma range_of_nat (w : nat) : range (Z.of_nat w) = map Z.of_nat (seq 0 w).
Proof. unfold range. now rewrite Nat2Z.id. Qed.

Lemma combine_map_both {B C D : Type} (f : B -> C) (g : B -> D) (l : list B) :
  combine (map f l) (map g l) = map (fun b => (f b, g b)) l.
Proof. induction l as [|b l IH]; simpl; [reflexivity | now rewrite IH]. Qed.

Lemma combine_map_left {B C : Type} (f : B -> C) (l : list B) :
  combine (map f l) l = map (fun b => (f b, b)) l.
Proof. induction l as [|b l IH]; simpl; [reflexivity | now rewrite IH]. Qed.

Lemma item_of_nat (v : list A) (i : nat) (x : A) :
  nth_error v i = Some x -> np.item v (Z.of_nat i) = ok x.
Proof.
  intros H. unfold np.item.
  assert (i < length v)%nat by (apply nth_error_Some; congruence).
  destruct (Z.ltb_spec (Z.of_nat i) 0); [lia|].
  destruct (Z.ltb_spec (Z.of_nat i) 0); [lia|].
  destruct (Z.leb_spec (Z.of_nat (length v)) (Z.of_nat i)); [lia|].
  simpl. now rewrite Nat2Z.id, H.
Qed.

(** Indexing a signal by the run of indices [i, i + 1, ..., i + w - 1]
    reads window [i]. *)
Lemma mapM_item_window (v : list A) (w i : nat) :
  (i + w <= length v)%nat ->
  mapM (np.item v) (map (fun j => Z.of_nat (i + j)) (seq 0 w)) = ok (window v w i).
Proof.
  revert i. induction w as [|w IH]; intros i H.
  - reflexivity.
  - destruct (nth_error v i) as [x|] eqn:Hx.
    2:{ apply nth_error_None in Hx. lia. }
    rewrite (window_S _ _ _ _ Hx).
    simpl seq. simpl map. rewrite <- seq_shift, map_map.
    simpl mapM. rewrite Nat.add_0_r, (item_of_nat _ _ _ Hx). simpl.
    rewrite (map_ext _ (fun j => Z.of_nat (S i + j))) by (intros; f_equal; lia).
    rewrite IH by lia. reflexivity.
Qed.

Lemma mapM_ok_map {B C D : Type} (f : C -> result D) (h : B -> C) (g : B -> D)
  (l : list B) :
  (forall b, In b l -> f (h b) = ok (g b)) -> mapM f (map h l) = ok (map g l).
Proof.
  induction l as [|b l IH]; intros H; simpl; [reflexivity|].
  rewrite (H b) by now left. simpl.
  rewrite IH by (intros; apply H; now right). reflexivity.
Qed.

End Windows.

Section Grids.
Import Py.

(** [np.mgrid] at non-negative extents. *)
Lemma mgrid_of_nat (n m : nat) :
  np.mgrid (Z.of_nat n) (Z.of_nat m) =
  ok (np.Array2 m (map (fun i => map (fun _ => Z.of_nat i) (seq 0 m)) (seq 0 n)),
      np.Array2 m (map (fun _ => map Z.of_nat (seq 0 m)) (seq 0 n))).
Proof.
  unfold np.mgrid.
  destruct (Z.ltb_spec (Z.of_nat n) 0); [lia|].
  destruct (Z.ltb_spec (Z.of_nat m) 0); [lia|].
  simpl. rewrite Nat2Z.id, !range_of_nat, !map_map. do 3 f_equal.
  apply map_ext. intros i. now rewrite map_map.
Qed.

(** The index grid of both windowing functions:
    [indices[i][j] = i + j]. *)
Lemma sum_grids_of_nat (n m : nat) :
  np.sum_grids
    (np.Array2 m (map (fun i => map (fun _ => Z.of_nat i) (seq 0 m)) (seq 0 n)),
     np.Array2 m (map (fun _ => map Z.of_nat (seq 0 m)) (seq 0 n))) =
  np.Array2 m (map (fun i => map (fun j => Z.of_nat (i + j)) (seq 0 m)) (seq 0 n)).
Proof.
  unfold np.sum_grids. simpl. f_equal.
  rewrite combine_map_both, !map_map.
  apply map_ext. intros i. simpl.
  rewrite combine_map_both, !map_map.
  apply map_ext. intros j. simpl. lia.
Qed.

(** [windowed_beats]: row [i] is window [i]. *)
Lemma windowed_beats_rows (beats : list R) (w n : nat) :
  (n + w = length beats + 1)%nat ->
  sudep_HRV.windowed_beats beats (Z.of_nat w) =
  ok (np.Array2 w (map (window beats w) (seq 0 n))).
Proof.
  intros H. unfold sudep_HRV.windowed_beats.
  replace (Z.of_nat (length beats) - Z.of_nat w + 1) with (Z.of_nat n) by lia.
  rewrite mgrid_of_nat. cbn [Py.bind ok]. rewrite sum_grids_of_nat.
  unfold np.take. cbn [np.a_rows np.a_ncols].
  rewrite (mapM_ok_map _ _ (window beats w)).
  - reflexivity.
  - intros i Hi. apply in_seq in Hi. apply mapM_item_window. lia.
Qed.

End Grids.

Section Columns.
Import Py.

Context {A : Type}.

Lemma column_cons (r : list A) (rs : list (list A)) (j : nat) :
  np.column (r :: rs) j =
  match nth_error r j with Some x => x :: np.column rs j | None => np.column rs j end.
Proof. unfold np.column. simpl. now destruct (nth_error r j). Qed.

(** Column [j] of rows given by a function of the row number. *)
Lemma column_map {B : Type} (f : B -> list A) (g : B -> A) (l : list B) (j : nat) :
  (forall b, In b l -> nth_error (f b) j = Some (g b)) ->
  np.column (map f l) j = map g l.
Proof.
  induction l as [|b l IH]; intros H; [reflexivity|].
  simpl map. rewrite column_cons, (H b) by now left.
  f_equal. apply IH. intros; apply H; now right.
Qed.

(** In the array whose row [j] is the run of [n] samples from [j], column
    [i] is the run of [w] samples from [i]. *)
Lemma column_windows (n w i : nat) (v : list A) :
  (i < n)%nat -> (n + w <= length v + 1)%nat ->
  np.column (map (window v n) (seq 0 w)) i = window v w i.
Proof.
  revert v. induction w as [|w IH]; intros v Hi Hv; [reflexivity|].
  destruct v as [|a v]; [simpl in Hv; lia|].
  simpl seq. simpl map. rewrite column_cons, window_nth by exact Hi.
  simpl Nat.add.
  destruct (nth_error (a :: v) i) as [x|] eqn:Hx.
  2:{ apply nth_error_None in Hx. simpl in *. lia. }
  rewrite (window_S _ _ _ _ Hx).
  rewrite <- seq_shift, map_map.
  change (map (fun j => window (a :: v) n (S j)) (seq 0 w))
    with (map (window v n) (seq 0 w)).
  rewrite IH by (simpl in Hv; lia). reflexivity.
Qed.

End Columns.

Section Differences.
Import Py.
Local Open Scope R_scope.

Lemma diff1_cons2 (a b : R) (v : list R) :
  np.diff1 (a :: b :: v) = (b - a) :: np.diff1 (b :: v).
Proof. reflexivity. Qed.

Lemma diff1_length (v : list R) : length (np.diff1 v) = Nat.pred (length v).
Proof.
  unfold np.diff1. rewrite length_map, length_combine.
  destruct v; cbn [length tl Nat.pred]; lia.
Qed.

Lemma diff1_skipn (j : nat) (v : list R) :
  np.diff1 (skipn j v) = skipn j (np.diff1 v).
Proof.
  revert v. induction j as [|j IH]; intros v; [reflexivity|].
  destruct v as [|a [|b v]]; try reflexivity.
  - simpl. now destruct j.
  - rewrite diff1_cons2. simpl skipn. apply IH.
Qed.

Lemma diff1_firstn (n : nat) (v : list R) :
  np.diff1 (firstn n v) = firstn (Nat.pred n) (np.diff1 v).
Proof.
  revert v. induction n as [|n IH]; intros v; [reflexivity|].
  destruct v as [|a [|b v]].
  - simpl. now destruct n.
  - simpl. now destruct n.
  - destruct n as [|n]; [reflexivity|].
    change (firstn (S (S n)) (a :: b :: v)) with (a :: b :: firstn n v).
    rewrite diff1_cons2.
    change (b :: firstn n v) with (firstn (S n) (b :: v)).
    rewrite IH. reflexivity.
Qed.

(** The first difference of a window is a window of the first
    difference. *)
Lemma diff1_window (v : list R) (n j : nat) :
  np.diff1 (window v n j) = window (np.diff1 v) (Nat.pred n) j.
Proof. unfold window. now rewrite diff1_firstn, diff1_skipn. Qed.

End Differences.

Section Slices.
Import Py.

Context {A : Type}.

(** [l[0:len(l)-1]]: all but the last element; empty for the empty list,
    where the stop bound [-1] is clipped. *)
Lemma slice_init (l : list A) :
  slice l 0 (Z.of_nat (length l) - 1) = firstn (Nat.pred (length l)) l.
Proof.
  unfold slice, slice_bound. rewrite Z.ltb_irrefl.
  destruct (Z.ltb_spec (Z.of_nat (length l) - 1) 0).
  - destruct l; [reflexivity | simpl in *; lia].
  - rewrite Z.min_l, Z.min_l by lia. simpl skipn.
    f_equal. lia.
Qed.

(** [l[1:len(l)]]: all but the first element. *)
Lemma slice_tail (l : list A) :
  slice l 1 (Z.of_nat (length l)) = tl l.
Proof.
  unfold slice, slice_bound. change (1 <? 0) with false. cbv iota.
  destruct (Z.ltb_spec (Z.of_nat (length l)) 0); [lia|].
  destruct l as [|a l]; [reflexivity|].
  rewrite (Z.min_l 1), (Z.min_r (Z.of_nat (length (a :: l)))) by (simpl length; lia).
  simpl skipn. simpl tl. apply firstn_all2. simpl length. lia.
Qed.

Lemma firstn_seq_le (s n k : nat) :
  (k <= n)%nat -> firstn k (seq s n) = seq s k.
Proof.
  revert s n. induction k as [|k IH]; intros s n H; [reflexivity|].
  destruct n as [|n]; [lia|]. simpl. f_equal. apply IH. lia.
Qed.

Lemma firstn_map_seq {B : Type} (f : nat -> B) (n k : nat) :
  (k <= n)%nat -> firstn k (map f (seq 0 n)) = map f (seq 0 k).
Proof.
  intros H. now rewrite firstn_map, firstn_seq_le.
Qed.

Lemma tl_map_seq {B : Type} (f : nat -> B) (n : nat) :
  tl (map f (seq 0 n)) = map (fun i => f (S i)) (seq 0 (Nat.pred n)).
Proof.
  destruct n as [|n]; [reflexivity|].
  simpl. now rewrite <- seq_shift, map_map.
Qed.

End Slices.

Section Characterisation.
Import Py.
Local Open Scope R_scope.

(** [windowed_signal]: row [j] is the run of [n] samples from [j], so
    that column [i] is window [i]. *)
Lemma windowed_signal_rows (signal : list R) (w n : nat) :
  (n + w = length signal + 1)%nat ->
  sudep_pdf.windowed_signal signal (Z.of_nat w) =
  ok (np.Array2 n (map (window signal n) (seq 0 w))).
Proof.
  intros H. unfold sudep_pdf.windowed_signal.
  replace (Z.of_nat (length signal) - Z.of_nat w + 1)%Z with (Z.of_nat n) by lia.
  rewrite mgrid_of_nat. cbn [Py.bind ok]. rewrite sum_grids_of_nat.
  unfold np.take, np.transpose, np.a_nrows. cbn [np.a_rows np.a_ncols].
  rewrite length_map, length_seq.
  rewrite (map_ext_in _ (fun j => map (fun i => Z.of_nat (j + i)) (seq 0 n))).
  2:{ intros j Hj. apply in_seq in Hj.
      rewrite (column_map _ (fun i => Z.of_nat (j + i))); [reflexivity|].
      intros i Hi. apply in_seq in Hi.
      rewrite nth_error_map, nth_error_seq.
      destruct (Nat.ltb_spec j w); [|lia]. simpl. do 2 f_equal. lia. }
  rewrite (mapM_ok_map _ _ (window signal n)).
  - reflexivity.
  - intros j Hj. apply in_seq in Hj. apply mapM_item_window. lia.
Qed.

(** What [windowed_sample_variance] computes: entry [i] is the population
    variance of the [w] first differences from index [i] on, and there are
    [n - 1] of them for [n] windows. *)
Lemma windowed_sample_variance_values (signal : list R) (w n : nat) :
  (1 <= w)%nat -> (n + w = length signal + 1)%nat ->
  sudep_pdf.windowed_sample_variance signal (Z.of_nat w) =
  ok (map (fun i => np.var 0 (window (np.diff1 signal) w i)) (seq 0 (Nat.pred n))).
Proof.
  intros _ H. unfold sudep_pdf.windowed_sample_variance.
  rewrite (windowed_signal_rows _ _ _ H). cbn [Py.bind ok].
  unfold np.var_axis0, np.diff, np.transpose. cbn [np.a_rows np.a_ncols].
  rewrite !map_map. f_equal. apply map_ext_in. intros i Hi. apply in_seq in Hi.
  f_equal.
  rewrite (map_ext _ (window (np.diff1 signal) (Nat.pred n)))
    by (intros; apply diff1_window).
  apply column_windows; [lia|]. rewrite diff1_length. lia.
Qed.

(** What [SD] computes: [n - 1] values for [n] windows, value [i] from
    windows [i] and [i + 1], the standard deviation being numpy's default
    ([ddof=0]). *)
Lemma SD_values (beats : list R) (w n : nat) :
  (1 <= w)%nat -> (n + w = length beats + 1)%nat ->
  sudep_HRV.SD beats (Z.of_nat w) =
  ok (map (spec_SD1 0 beats w) (seq 0 (Nat.pred n)),
      map (spec_SD2 0 beats w) (seq 0 (Nat.pred n))).
Proof.
  intros _ H. unfold sudep_HRV.SD.
  rewrite (windowed_beats_rows _ _ _ H). cbn [Py.bind ok].
  replace (Z.of_nat (length beats) - Z.of_nat w + 1)%Z with (Z.of_nat n) by lia.
  unfold np.rows_slice. cbn [np.a_rows np.a_ncols].
  set (rows := map (window beats w) (seq 0 n)).
  assert (Hlen : length rows = n) by (unfold rows; now rewrite length_map, length_seq).
  assert (Hx : slice rows 0 (Z.of_nat n - 1) = firstn (Nat.pred n) rows)
    by (rewrite <- Hlen; apply slice_init).
  assert (Hy : slice rows 1 (Z.of_nat n) = tl rows)
    by (rewrite <- Hlen; apply slice_tail).
  rewrite Hx, Hy. clear Hx Hy Hlen.
  unfold rows. rewrite firstn_map_seq, tl_map_seq by lia.
  unfold sudep_HRV.means, sudep_HRV.SD1, sudep_HRV.SD2.
  unfold np.mean_axis1, np.std_axis1, np.zip1, np.zip2, np.broadcast_col.
  cbn [np.a_rows np.a_ncols].
  rewrite !map_map, !combine_map_both, !map_map, !combine_map_both, !map_map.
  cbn [fst snd]. unfold spec_SD1, spec_SD2.
  do 2 f_equal; apply map_ext; intros i; cbn [fst snd]; now rewrite map_map.
Qed.

End Characterisation.

(** Unfolds the reductions of [np] on a list given by its elements, so
    that [lra] sees plain arithmetic. *)
Ltac np_reduce :=
  cbv [np.var np.mean np.sum map fold_right length Nat.sub INR].

Section Failures.
Import Py.

(** A window two or more samples longer than the signal: the grid has a
    negative extent. *)
Lemma mgrid_negative (n m : Z) : n < 0 -> np.mgrid n m = raise ValueError.
Proof.
  intros H. unfold np.mgrid. now destruct (Z.ltb_spec n 0); [|lia].
Qed.

Lemma SD_too_short (beats : list R) (w : Z) :
  Z.of_nat (length beats) + 1 < w -> sudep_HRV.SD beats w = raise ValueError.
Proof.
  intros H. unfold sudep_HRV.SD, sudep_HRV.windowed_beats.
  now rewrite mgrid_negative by lia.
Qed.

Lemma windowed_sample_variance_too_short (signal : list R) (w : Z) :
  Z.of_nat (length signal) + 1 < w ->
  sudep_pdf.windowed_sample_variance signal w = raise ValueError.
Proof.
  intros H. unfold sudep_pdf.windowed_sample_variance, sudep_pdf.windowed_signal.
  now rewrite mgrid_negative by lia.
Qed.

End Failures.

Section Mask.
Import Py.
Local Open Scope R_scope.

Lemma astype_bool_zeros (k : nat) : np.astype_bool (repeat 0 k) = repeat false k.
Proof.
  unfold np.astype_bool.
  induction k as [|k IH]; simpl; [reflexivity|].
  rewrite IH. now destruct (Req_dec_T 0 0).
Qed.

Lemma astype_bool_of_bools (b : list bool) :
  np.astype_bool (map (fun x : bool => if x then 1 else 0) b) = b.
Proof.
  unfold np.astype_bool.
  induction b as [|x b IH]; simpl; [reflexivity|].
  rewrite IH. f_equal.
  destruct x.
  - destruct (Req_dec_T 1 0); [lra | reflexivity].
  - destruct (Req_dec_T 0 0); [reflexivity | lra].
Qed.

(** The mask of [mark_high_var]: [w - 1] leading entries that are not
    flagged, then one entry per value of [windowed_sample_variance],
    flagged when the value is above 1. *)
Lemma is_above_thresh_values (signal : list R) (w n : nat) :
  (1 <= w)%nat -> (n + w = length signal + 1)%nat ->
  sudep_pdf.is_above_thresh signal (Z.of_nat w) =
  ok (repeat false (w - 1) ++
      sudep_pdf.find_high_variance
        (map (fun i => np.var 0 (window (np.diff1 signal) w i)) (seq 0 (Nat.pred n))) 1).
Proof.
  intros Hw H. unfold sudep_pdf.is_above_thresh.
  rewrite (windowed_sample_variance_values _ _ _ Hw H). cbn [Py.bind ok].
  unfold np.zeros. destruct (Z.ltb_spec (Z.of_nat w - 1) 0); [lia|].
  cbn [Py.bind ok]. replace (Z.to_nat (Z.of_nat w - 1)) with (w - 1)%nat by lia.
  unfold np.append_bools, np.astype_bool. rewrite map_app.
  fold (np.astype_bool (repeat 0 (w - 1))).
  rewrite astype_bool_zeros. do 2 f_equal.
  apply astype_bool_of_bools.
Qed.

End Mask.

(** ** C1: sliding windows *)

(** C1, as amended.  For a window of [w] samples on a signal of [N]
    samples: when [N >= w], the windowing of [SD] and the windowing of
    [windowed_sample_variance] each produce exactly [N - w + 1] windows,
    window [i] being the samples at the indices [i, i + w); when
    [N = w - 1] both functions return an empty series without failing; when
    [N < w - 1] both fail with numpy's [ValueError] before any sample is
    read. *)
Theorem sliding_windows_count (signal : list R) (w : nat) :
  ((w <= length signal)%nat ->
   exists wb ws,
     sudep_HRV.windowed_beats signal (Z.of_nat w) = Py.ok wb /\
     sudep_pdf.windowed_signal signal (Z.of_nat w) = Py.ok ws /\
     np.a_nrows wb = (length signal - w + 1)%nat /\
     np.a_ncols ws = (length signal - w + 1)%nat /\
     forall i, (i < length signal - w + 1)%nat ->
       nth_error (np.a_rows wb) i = Some (window signal w i) /\
       np.column (np.a_rows ws) i = window signal w i) /\
  ((length signal + 1 = w)%nat ->
   sudep_HRV.SD signal (Z.of_nat w) = Py.ok ([], []) /\
   sudep_pdf.windowed_sample_variance signal (Z.of_nat w) = Py.ok []) /\
  ((length signal + 1 < w)%nat ->
   sudep_HRV.SD signal (Z.of_nat w) = Py.raise Py.ValueError /\
   sudep_pdf.windowed_sample_variance signal (Z.of_nat w) = Py.raise Py.ValueError).
Proof.
  split; [|split].
  - intros Hw.
    assert (H : (length signal - w + 1 + w = length signal + 1)%nat) by lia.
    eexists _, _.
    split; [exact (windowed_beats_rows _ _ _ H)|].
    split; [exact (windowed_signal_rows _ _ _ H)|].
    unfold np.a_nrows. cbn [np.a_rows np.a_ncols].
    rewrite length_map, length_seq.
    split; [reflexivity|]. split; [reflexivity|].
    intros i Hi. split.
    + rewrite nth_error_map, nth_error_seq.
      destruct (Nat.ltb_spec i (length signal - w + 1)); [reflexivity | lia].
    + apply column_windows; lia.
  - intros Hw.
    assert (H : (0 + w = length signal + 1)%nat) by lia.
    assert (H1 : (1 <= w)%nat) by lia.
    split.
    + exact (SD_values _ _ _ H1 H).
    + exact (windowed_sample_variance_values _ _ _ H1 H).
  - intros Hw. split.
    + apply SD_too_short. lia.
    + apply windowed_sample_variance_too_short. lia.
Qed.

(** A window one sample longer than the signal: both functions return an
    empty series, no exception is raised. *)
Lemma sliding_windows_no_failure :
  (length [1; 2]%R < 3)%nat /\
  sudep_HRV.SD [1; 2]%R 3 = Py.ok ([], []) /\
  sudep_pdf.windowed_sample_variance [1; 2]%R 3 = Py.ok [] /\
  (forall e, sudep_HRV.SD [1; 2]%R 3 <> Py.raise e) /\
  (forall e, sudep_pdf.windowed_sample_variance [1; 2]%R 3 <> Py.raise e).
Proof.
  assert (H : (0 + 3 = length [1; 2]%R + 1)%nat) by reflexivity.
  assert (H1 : (1 <= 3)%nat) by lia.
  pose proof (SD_values _ _ _ H1 H) as HSD.
  pose proof (windowed_sample_variance_values _ _ _ H1 H) as Hvar.
  change (sudep_HRV.SD [1; 2]%R 3 = Py.ok ([], [])) in HSD.
  change (sudep_pdf.windowed_sample_variance [1; 2]%R 3 = Py.ok []) in Hvar.
  repeat split; try assumption; try (simpl; lia).
  - intros e. rewrite HSD. discriminate.
  - intros e. rewrite Hvar. discriminate.
Qed.

Lemma sliding_windows_count_witness :
  (exists wb ws,
     sudep_HRV.windowed_beats [1; 2; 3]%R 2 = Py.ok wb /\
     sudep_pdf.windowed_signal [1; 2; 3]%R 2 = Py.ok ws /\
     np.a_nrows wb = 2%nat /\
     np.a_ncols ws = 2%nat /\
     forall i, (i < 2)%nat ->
       nth_error (np.a_rows wb) i = Some (window [1; 2; 3]%R 2 i) /\
       np.column (np.a_rows ws) i = window [1; 2; 3]%R 2 i) /\
  (sudep_HRV.SD [1; 2; 3]%R 4 = Py.ok ([], []) /\
   sudep_pdf.windowed_sample_variance [1; 2; 3]%R 4 = Py.ok []) /\
  (sudep_HRV.SD [1; 2; 3]%R 5 = Py.raise Py.ValueError /\
   sudep_pdf.windowed_sample_variance [1; 2; 3]%R 5 = Py.raise Py.ValueError).
Proof.
  split; [|split].
  - apply (proj1 (sliding_windows_count [1; 2; 3]%R 2)). simpl. lia.
  - apply (proj1 (proj2 (sliding_windows_count [1; 2; 3]%R 4))). reflexivity.
  - apply (proj2 (proj2 (sliding_windows_count [1; 2; 3]%R 5))). simpl. lia.
Defined.

(** ** C2: the high-variance mask *)

(** C2.  On the signal [1,1,1,1,10,10,10,10] with a window of 4 the mask
    of [mark_high_var] has 7 entries for 8 samples: 3 leading entries that
    are not flagged and one entry for each of the 4 values of
    [windowed_sample_variance], all above the threshold of 1. *)
Theorem is_above_thresh_jump :
  sudep_pdf.is_above_thresh [1; 1; 1; 1; 10; 10; 10; 10]%R 4 =
  Py.ok [false; false; false; true; true; true; true].
Proof.
  change 4 with (Z.of_nat 4).
  rewrite (is_above_thresh_values _ 4 5) by (simpl; lia).
  cbv [window np.diff1 firstn skipn combine tl map seq Nat.pred Nat.sub repeat app
       sudep_pdf.find_high_variance fst snd].
  repeat match goal with
         | |- context [Rgt_dec ?v 1] =>
             let H := fresh in
             assert (H : (v > 1)%R)
               by (np_reduce; lra);
             destruct (Rgt_dec v 1); [clear H | contradiction]
         end.
  reflexivity.
Qed.

(** For every signal at least as long as the window, the mask is one
    entry shorter than the signal. *)
Lemma is_above_thresh_length (signal : list R) (w : nat) :
  (1 <= w <= length signal)%nat ->
  exists mask,
    sudep_pdf.is_above_thresh signal (Z.of_nat w) = Py.ok mask /\
    length mask = (length signal - 1)%nat /\
    firstn (w - 1) mask = repeat false (w - 1).
Proof.
  intros [Hw HN].
  assert (H : (length signal - w + 1 + w = length signal + 1)%nat) by lia.
  eexists. split; [exact (is_above_thresh_values _ _ _ Hw H)|].
  split.
  - unfold sudep_pdf.find_high_variance.
    rewrite length_app, repeat_length, !length_map, length_seq. lia.
  - rewrite firstn_app, repeat_length, Nat.sub_diag, firstn_O, app_nil_r.
    apply firstn_all2. rewrite repeat_length. lia.
Qed.

(** ** C3: Poincare dispersion *)

Section Dispersion.
Local Open Scope R_scope.

(** C3, as amended.  For every beat-interval sequence of [N] samples and
    every window of [w >= 1] samples with [w <= N + 1], [SD] returns two
    series of [N - w] values, where
    [SD1_i = std((x_i - y_i) + (meany_i - meanx_i)) / sqrt(2)] and
    [SD2_i = std((x_i + y_i) - (meanx_i + meany_i)) / sqrt(2)], [std] being
    the population standard deviation (numpy's default, [ddof=0]). *)
Theorem SD_population_std (beats : list R) (w : nat) :
  (1 <= w)%nat -> (w <= length beats + 1)%nat ->
  exists sd1 sd2,
    sudep_HRV.SD beats (Z.of_nat w) = Py.ok (sd1, sd2) /\
    length sd1 = (length beats - w)%nat /\
    length sd2 = (length beats - w)%nat /\
    forall i, (i < length beats - w)%nat ->
      nth_error sd1 i = Some (spec_SD1 0 beats w i) /\
      nth_error sd2 i = Some (spec_SD2 0 beats w i).
Proof.
  intros Hw HN.
  assert (H : (length beats + 1 - w + w = length beats + 1)%nat) by lia.
  eexists _, _. split; [exact (SD_values _ _ _ Hw H)|].
  replace (Nat.pred (length beats + 1 - w)) with (length beats - w)%nat by lia.
  rewrite !length_map, length_seq. split; [reflexivity|]. split; [reflexivity|].
  intros i Hi. rewrite !nth_error_map, nth_error_seq.
  destruct (Nat.ltb_spec i (length beats - w)); [|lia].
  split; reflexivity.
Qed.

Lemma SD_population_std_witness :
  exists sd1 sd2,
    sudep_HRV.SD [1; 3; 1] 2 = Py.ok (sd1, sd2) /\
    length sd1 = 1%nat /\
    length sd2 = 1%nat /\
    forall i, (i < 1)%nat ->
      nth_error sd1 i = Some (spec_SD1 0 [1; 3; 1] 2 i) /\
      nth_error sd2 i = Some (spec_SD2 0 [1; 3; 1] 2 i).
Proof.
  apply (SD_population_std [1; 3; 1] 2); simpl; lia.
Defined.

(** On the beats [1, 3, 1] with a window of 2 the deviations of the single
    window pair are [-2, 2]: their population variance is 4 and their
    sample variance is 8. *)
Lemma var_ddof_example :
  np.var 0 [1 - 3 + (np.mean [3; 1] - np.mean [1; 3]);
            3 - 1 + (np.mean [3; 1] - np.mean [1; 3])] = 4 /\
  np.var 1 [1 - 3 + (np.mean [3; 1] - np.mean [1; 3]);
            3 - 1 + (np.mean [3; 1] - np.mean [1; 3])] = 8.
Proof.
  split; np_reduce; lra.
Qed.

(** The value [SD] returns on the beats [1, 3, 1] with a window of 2 is
    not the one the sample standard deviation ([ddof=1]) gives. *)
Lemma SD_not_sample_std :
  exists sd1 sd2,
    sudep_HRV.SD [1; 3; 1] 2 = Py.ok (sd1, sd2) /\
    nth_error sd1 0 <> Some (spec_SD1 1 [1; 3; 1] 2 0).
Proof.
  assert (H : (2 + 2 = length [1; 3; 1]%R + 1)%nat) by reflexivity.
  assert (H2 : (1 <= 2)%nat) by lia.
  eexists _, _. split; [exact (SD_values _ _ _ H2 H)|].
  cbv [Nat.pred seq map nth_error spec_SD1 window firstn skipn combine fst snd np.std].
  destruct var_ddof_example as [H0 H1]. rewrite H0, H1.
  intros Heq. injection Heq as Heq.
  assert (Hs : 0 < sqrt 2) by (apply sqrt_lt_R0; lra).
  apply (Rmult_eq_compat_r (sqrt 2)) in Heq.
  unfold Rdiv in Heq. rewrite !Rmult_assoc, Rinv_l, !Rmult_1_r in Heq by lra.
  apply sqrt_inj in Heq; lra.
Qed.

End Dispersion.

(** ** C4: the zero clamp of CSI *)

Section Clamp.
Import Py.
Local Open Scope R_scope.

Lemma nth_error_combine {A B : Type} (u : list A) (v : list B) (i : nat) (a : A) (b : B) :
  nth_error u i = Some a -> nth_error v i = Some b ->
  nth_error (combine u v) i = Some (a, b).
Proof.
  revert v i. induction u as [|x u IH]; intros [|y v] [|i] Ha Hb;
    simpl in *; try discriminate.
  - congruence.
  - now apply IH.
Qed.

(** Both series of [SD] have one length. *)
Lemma SD_lengths (beats : list R) (w : Z) (sd1 sd2 : list R) :
  sudep_HRV.SD beats w = ok (sd1, sd2) -> length sd1 = length sd2.
Proof.
  unfold sudep_HRV.SD.
  destruct (sudep_HRV.windowed_beats beats w) as [e|wb]; [discriminate|].
  cbn [Py.bind sudep_HRV.means]. intros [= <- <-].
  unfold sudep_HRV.SD1, sudep_HRV.SD2, np.std_axis1, np.broadcast_col, np.zip2,
    np.zip1, np.mean_axis1.
  cbn [np.a_rows]. rewrite !length_map, !length_combine, !length_map, !length_combine,
    !length_map. lia.
Qed.

Lemma window_repeat (k : R) (N w i : nat) :
  (i + w <= N)%nat -> window (repeat k N) w i = repeat k w.
Proof.
  revert i. induction w as [|w IH]; intros i H; [reflexivity|].
  rewrite (window_S _ _ _ k) by (apply nth_error_repeat; lia).
  simpl. f_equal. apply IH. lia.
Qed.

Lemma map_const_repeat {A B : Type} (c : B) (l : list A) :
  map (fun _ => c) l = repeat c (length l).
Proof. induction l as [|a l IH]; simpl; [reflexivity | now rewrite IH]. Qed.

Lemma sum_repeat_0 (w : nat) : np.sum (repeat 0 w) = 0.
Proof. induction w as [|w IH]; simpl; [reflexivity | rewrite IH; ring]. Qed.

Lemma var_repeat_0 (ddof w : nat) : np.var ddof (repeat 0 w) = 0.
Proof.
  unfold np.var, np.mean. rewrite sum_repeat_0, map_repeat.
  replace ((0 - 0 / INR (length (repeat 0 w))) * (0 - 0 / INR (length (repeat 0 w))))
    with 0 by (unfold Rdiv; ring).
  rewrite sum_repeat_0. unfold Rdiv. ring.
Qed.

(** On a constant signal the deviations from the identity line vanish, so
    [SD1] is exactly zero. *)
Lemma spec_SD1_constant (k : R) (N w i : nat) :
  (S i + w <= N)%nat -> spec_SD1 0 (repeat k N) w i = 0.
Proof.
  intros H. unfold spec_SD1. cbv zeta.
  rewrite !window_repeat by lia.
  set (m := np.mean (repeat k w)).
  assert (Hd : map (fun ab => fst ab - snd ab + (m - m)) (combine (repeat k w) (repeat k w))
               = repeat 0 w).
  { clearbody m. clear H.
    induction w as [|w IH]; simpl; [reflexivity|]. rewrite IH. f_equal. ring. }
  rewrite Hd. unfold np.std. rewrite var_repeat_0, sqrt_0. unfold Rdiv. ring.
Qed.

Lemma clamp_SD1_zeros (m : nat) : sudep_HRV.clamp_SD1 (repeat 0 m) = repeat 1 m.
Proof.
  unfold sudep_HRV.clamp_SD1, np.mask_set, np.eq0.
  induction m as [|m IH]; simpl; [reflexivity|].
  rewrite IH. now destruct (Req_dec_T 0 0).
Qed.

Lemma clamp_SD2_zeros (sd2 : list R) :
  sudep_HRV.clamp_SD2 (repeat 0 (length sd2)) sd2 = repeat 1 (length sd2).
Proof.
  unfold sudep_HRV.clamp_SD2, np.mask_set, np.eq0.
  induction sd2 as [|s sd2 IH]; simpl; [reflexivity|].
  rewrite IH. now destruct (Req_dec_T 0 0).
Qed.

Lemma zip1_div_ones (m : nat) : np.zip1 Rdiv (repeat 1 m) (repeat 1 m) = repeat 1 m.
Proof.
  unfold np.zip1. induction m as [|m IH]; simpl; [reflexivity|].
  rewrite IH. f_equal. field.
Qed.

(** On a constant signal every clamped ratio is 1. *)
Lemma clamped_ratio_constant (k : R) (N w : nat) :
  (1 <= w <= N + 1)%nat ->
  (let* sd := sudep_HRV.SD (repeat k N) (Z.of_nat w) in
   let sd2 := sudep_HRV.clamp_SD2 (fst sd) (snd sd) in
   let sd1 := sudep_HRV.clamp_SD1 (fst sd) in
   ok (np.zip1 Rdiv sd2 sd1)) = ok (repeat 1 (N - w)).
Proof.
  intros [Hw HN].
  assert (H : (N + 1 - w + w = length (repeat k N) + 1)%nat)
    by (rewrite repeat_length; lia).
  rewrite (SD_values _ _ _ Hw H). cbv zeta. cbn [Py.bind ok fst snd].
  replace (Nat.pred (N + 1 - w)) with (N - w)%nat by lia.
  rewrite (map_ext_in _ (fun _ => 0))
    by (intros i Hi; apply in_seq in Hi; apply spec_SD1_constant; lia).
  rewrite map_const_repeat, length_seq.
  set (sd2 := map (spec_SD2 0 (repeat k N) w) (seq 0 (N - w))).
  assert (Hl : length sd2 = (N - w)%nat)
    by (unfold sd2; now rewrite length_map, length_seq).
  rewrite <- Hl.
  now rewrite clamp_SD2_zeros, clamp_SD1_zeros, zip1_div_ones.
Qed.

(** The same from the watch: a constant, nonzero heart rate gives
    constant beat intervals [60 / h]. *)
Lemma CSI_constant_heart_rate (times : list R) (h : R) (N w : nat) :
  h <> 0 -> (1 <= w <= N + 1)%nat ->
  sudep_HRV.CSI (sudep_HRV.HeartData times (repeat h N)) (Z.of_nat w) true =
  ok (repeat 1 (N - w)).
Proof.
  intros _ Hw. unfold sudep_HRV.CSI. cbn [Py.bind ok].
  rewrite map_repeat. now apply clamped_ratio_constant.
Qed.

(** C4.  Wherever [SD1_i] equals 0, [CSI] replaces both [SD1_i] and
    [SD2_i] by 1 before it takes the ratio, which is then 1; and for a
    constant beat-interval signal of [N] samples and a window of [w >= 1]
    samples with [w <= N + 1], [CSI] returns [N - w] values, all equal
    to 1. *)
Theorem CSI_zero_clamp :
  (forall (beats : list R) (w : Z) (sd1 sd2 : list R) (i : nat),
     sudep_HRV.SD beats w = ok (sd1, sd2) ->
     nth_error sd1 i = Some 0 ->
     nth_error (sudep_HRV.clamp_SD1 sd1) i = Some 1 /\
     nth_error (sudep_HRV.clamp_SD2 sd1 sd2) i = Some 1 /\
     exists csi,
       sudep_HRV.CSI (sudep_HRV.BeatVector beats) w false = ok csi /\
       nth_error csi i = Some 1) /\
  (forall (k : R) (N w : nat),
     (1 <= w <= N + 1)%nat ->
     sudep_HRV.CSI (sudep_HRV.BeatVector (repeat k N)) (Z.of_nat w) false =
     ok (repeat 1 (N - w))).
Proof.
  split.
  - intros beats w sd1 sd2 i HSD Hi.
    pose proof (SD_lengths _ _ _ _ HSD) as Hlen.
    assert (Hi2 : exists s2, nth_error sd2 i = Some s2).
    { destruct (nth_error sd2 i) as [s2|] eqn:E; [eauto|].
      apply nth_error_None in E.
      assert (i < length sd1)%nat by (apply nth_error_Some; congruence). lia. }
    destruct Hi2 as [s2 Hi2].
    assert (Hm : nth_error (np.eq0 sd1) i = Some true).
    { unfold np.eq0. rewrite nth_error_map, Hi. simpl.
      now destruct (Req_dec_T 0 0). }
    assert (H1 : nth_error (sudep_HRV.clamp_SD1 sd1) i = Some 1).
    { unfold sudep_HRV.clamp_SD1, np.mask_set.
      now rewrite nth_error_map, (nth_error_combine _ _ _ _ _ Hi Hm). }
    assert (H2 : nth_error (sudep_HRV.clamp_SD2 sd1 sd2) i = Some 1).
    { unfold sudep_HRV.clamp_SD2, np.mask_set.
      now rewrite nth_error_map, (nth_error_combine _ _ _ _ _ Hi2 Hm). }
    split; [exact H1|]. split; [exact H2|].
    unfold sudep_HRV.CSI. cbn [Py.bind ok]. rewrite HSD. cbv zeta. cbn [Py.bind fst snd].
    eexists. split; [reflexivity|]. cbn [fst snd].
    unfold np.zip1. rewrite nth_error_map, (nth_error_combine _ _ _ _ _ H2 H1).
    simpl. f_equal. field.
  - intros k N w Hw.
    unfold sudep_HRV.CSI. cbn [Py.bind ok]. now apply clamped_ratio_constant.
Qed.

Lemma CSI_zero_clamp_witness :
  (exists csi,
     sudep_HRV.CSI (sudep_HRV.BeatVector (repeat 0.8 5)) 3 false = ok csi /\
     nth_error csi 0 = Some 1) /\
  sudep_HRV.CSI (sudep_HRV.BeatVector (repeat 0.8 5)) 3 false = ok (repeat 1 2).
Proof.
  split.
  - apply (proj1 CSI_zero_clamp (repeat 0.8 5) 3%Z
             (map (spec_SD1 0 (repeat 0.8 5) 3) (seq 0 2))
             (map (spec_SD2 0 (repeat 0.8 5) 3) (seq 0 2)) 0%nat).
    + apply (SD_values (repeat 0.8 5) 3 3); [lia | reflexivity].
    + cbn [seq map nth_error]. f_equal. apply spec_SD1_constant. lia.
  - apply (proj2 CSI_zero_clamp 0.8 5%nat 3%nat). lia.
Defined.

End Clamp.

(** ** C5: the order of date tokens *)

Section DateOrder.
Import sudep.

Lemma ascii_compare_refl (a : ascii) : Ascii.compare a a = Eq.
Proof. unfold Ascii.compare. apply N.compare_refl. Qed.

Lemma ascii_compare_trans (a b c : ascii) :
  Ascii.compare a b = Lt -> Ascii.compare b c = Lt -> Ascii.compare a c = Lt.
Proof.
  unfold Ascii.compare. rewrite !N.compare_lt_iff. apply N.lt_trans.
Qed.

Lemma string_compare_refl (s : string) : String.compare s s = Eq.
Proof.
  induction s as [|a s IH]; simpl; [reflexivity|].
  now rewrite ascii_compare_refl.
Qed.

Lemma string_compare_trans (s t u : string) :
  String.compare s t = Lt -> String.compare t u = Lt -> String.compare s u = Lt.
Proof.
  revert t u. induction s as [|a s IH]; intros [|b t] [|c u]; simpl; try discriminate;
    try reflexivity.
  destruct (Ascii.compare a b) eqn:Hab; try discriminate;
    destruct (Ascii.compare b c) eqn:Hbc; try discriminate; intros H1 H2.
  - apply Ascii.compare_eq_iff in Hab, Hbc. subst.
    rewrite ascii_compare_refl. eauto.
  - apply Ascii.compare_eq_iff in Hab. subst. now rewrite Hbc.
  - apply Ascii.compare_eq_iff in Hbc. subst. now rewrite Hab.
  - now rewrite (ascii_compare_trans _ _ _ Hab Hbc).
Qed.

Lemma tuple_compare_refl (k : list string) : tuple_compare k k = Eq.
Proof.
  induction k as [|a k IH]; simpl; [reflexivity|].
  now rewrite string_compare_refl.
Qed.

Lemma tuple_compare_eq (k1 k2 : list string) : tuple_compare k1 k2 = Eq -> k1 = k2.
Proof.
  revert k2. induction k1 as [|a k1 IH]; intros [|b k2]; simpl; try discriminate;
    try reflexivity.
  destruct (String.compare a b) eqn:Hab; try discriminate.
  apply String.compare_eq_iff in Hab. intros H. f_equal; [exact Hab | now apply IH].
Qed.

Lemma tuple_compare_antisym (k1 k2 : list string) :
  tuple_compare k1 k2 = CompOpp (tuple_compare k2 k1).
Proof.
  revert k2. induction k1 as [|a k1 IH]; intros [|b k2]; simpl; try reflexivity.
  rewrite (String.compare_antisym b a).
  destruct (String.compare a b); simpl; auto.
Qed.

Lemma tuple_compare_trans (k1 k2 k3 : list string) :
  tuple_compare k1 k2 = Lt -> tuple_compare k2 k3 = Lt -> tuple_compare k1 k3 = Lt.
Proof.
  revert k2 k3. induction k1 as [|a k1 IH]; intros [|b k2] [|c k3]; simpl;
    try discriminate; try reflexivity.
  destruct (String.compare a b) eqn:Hab; try discriminate;
    destruct (String.compare b c) eqn:Hbc; try discriminate; intros H1 H2.
  - apply String.compare_eq_iff in Hab, Hbc. subst.
    rewrite string_compare_refl. eauto.
  - apply String.compare_eq_iff in Hab. subst. now rewrite Hbc.
  - apply String.compare_eq_iff in Hbc. subst. now rewrite Hab.
  - now rewrite (string_compare_trans _ _ _ Hab Hbc).
Qed.

Lemma date_leb_total (a b : string) : date_leb a b = true \/ date_leb b a = true.
Proof.
  unfold date_leb. rewrite (tuple_compare_antisym (date_key b)).
  destruct (tuple_compare (date_key a) (date_key b)); simpl; auto.
Qed.

Lemma date_leb_trans (a b c : string) :
  date_leb a b = true -> date_leb b c = true -> date_leb a c = true.
Proof.
  unfold date_leb.
  destruct (tuple_compare (date_key a) (date_key b)) eqn:Hab; try discriminate;
    destruct (tuple_compare (date_key b) (date_key c)) eqn:Hbc; try discriminate;
    intros _ _.
  - apply tuple_compare_eq in Hab, Hbc. rewrite Hab, Hbc.
    now rewrite tuple_compare_refl.
  - apply tuple_compare_eq in Hab. now rewrite Hab, Hbc.
  - apply tuple_compare_eq in Hbc. now rewrite <- Hbc, Hab.
  - now rewrite (tuple_compare_trans _ _ _ Hab Hbc).
Qed.

Lemma date_leb_key_eq (a b : string) :
  date_leb a b = true -> date_leb b a = true -> date_key a = date_key b.
Proof.
  unfold date_leb. rewrite (tuple_compare_antisym (date_key b)).
  destruct (tuple_compare (date_key a) (date_key b)) eqn:Hab; simpl; try discriminate.
  intros _ _. now apply tuple_compare_eq.
Qed.

(** Two tokens of twelve characters with one key are one token: the key
    is a rearrangement of the six fields. *)
Lemma date_key_inj (a b : string) :
  String.length a = 12%nat -> String.length b = 12%nat ->
  date_key a = date_key b -> a = b.
Proof.
  intros Ha Hb.
  do 13 (destruct a as [|? a]; try discriminate Ha).
  do 13 (destruct b as [|? b]; try discriminate Hb).
  cbv. intros H. injection H as -> -> -> -> -> -> -> -> -> -> -> ->. reflexivity.
Qed.

End DateOrder.

Section Sorting.
Import sudep.

Variable leb : string -> string -> bool.
Hypothesis leb_total : forall a b, leb a b = true \/ leb b a = true.

Lemma sort_insert_hd (x : string) (l : list string) :
  HdRel (le_of leb) x l -> sort_insert leb x l = x :: l.
Proof.
  intros H. destruct l as [|y l]; [reflexivity|].
  inversion H as [|? ? Hxy]; subst. simpl. unfold le_of in Hxy. now rewrite Hxy.
Qed.

Lemma sort_insert_sorted (x : string) (l : list string) :
  Sorted (le_of leb) l -> Sorted (le_of leb) (sort_insert leb x l).
Proof.
  induction l as [|y l IH]; intros Hs; simpl.
  - repeat constructor.
  - destruct (leb x y) eqn:Hxy.
    + constructor; [exact Hs | now constructor].
    + inversion Hs as [|? ? Hs' Hhd]; subst.
      constructor; [now apply IH|].
      assert (Hyx : le_of leb y x) by (destruct (leb_total x y); [congruence | assumption]).
      destruct l as [|z l]; simpl; [now constructor|].
      destruct (leb x z); constructor; [exact Hyx|].
      now inversion Hhd.
Qed.

Lemma list_sort_sorted (l : list string) : Sorted (le_of leb) (list_sort leb l).
Proof.
  induction l as [|x l IH]; simpl; [constructor | now apply sort_insert_sorted].
Qed.

Lemma sort_insert_perm (x : string) (l : list string) :
  Permutation (x :: l) (sort_insert leb x l).
Proof.
  induction l as [|y l IH]; simpl; [reflexivity|].
  destruct (leb x y); [reflexivity|].
  rewrite perm_swap. now constructor.
Qed.

Lemma list_sort_perm (l : list string) : Permutation l (list_sort leb l).
Proof.
  induction l as [|x l IH]; simpl; [constructor|].
  rewrite <- sort_insert_perm. now constructor.
Qed.

(** Sorting a sorted list changes nothing. *)
Lemma list_sort_of_sorted (l : list string) : Sorted (le_of leb) l -> list_sort leb l = l.
Proof.
  induction l as [|x l IH]; intros Hs; [reflexivity|].
  inversion Hs as [|? ? Hs' Hhd]; subst. simpl.
  rewrite IH by exact Hs'. now apply sort_insert_hd.
Qed.

Lemma list_sort_idempotent (l : list string) :
  list_sort leb (list_sort leb l) = list_sort leb l.
Proof. apply list_sort_of_sorted, list_sort_sorted. Qed.

End Sorting.

Section DateSort.
Import sudep.

(** C5.  The order by which [_date_sort] sorts, the comparison of the
    fields reordered as (year, month, day, hour, minute, second), is a
    total order on 12-digit tokens: it is antisymmetric, transitive and
    total; and sorting is idempotent on every list, its result being an
    ordered rearrangement of its argument. *)
Theorem date_sort_total_order :
  (forall a b,
     is_date_token a = true -> is_date_token b = true ->
     date_leb a b = true -> date_leb b a = true -> a = b) /\
  (forall a b c, date_leb a b = true -> date_leb b c = true -> date_leb a c = true) /\
  (forall a b, date_leb a b = true \/ date_leb b a = true) /\
  (forall L,
     _date_sort (_date_sort L) = _date_sort L /\
     Sorted (le_of date_leb) (_date_sort L) /\
     Permutation L (_date_sort L)).
Proof.
  split; [|split; [|split]].
  - intros a b Ha Hb Hab Hba.
    unfold is_date_token in Ha, Hb.
    apply andb_true_iff in Ha as [Ha _]. apply andb_true_iff in Hb as [Hb _].
    apply Nat.eqb_eq in Ha, Hb.
    apply date_key_inj; auto using date_leb_key_eq.
  - exact date_leb_trans.
  - exact date_leb_total.
  - intros L. unfold _date_sort. split; [|split].
    + apply list_sort_idempotent, date_leb_total.
    + apply list_sort_sorted, date_leb_total.
    + apply list_sort_perm.
Qed.

Lemma date_sort_total_order_witness :
  ("011223000000" = "011223000000")%string /\
  date_leb "011223000000" "010124000000" = true.
Proof.
  split.
  - apply (proj1 date_sort_total_order "011223000000" "011223000000")%string;
      reflexivity.
  - apply (proj1 (proj2 date_sort_total_order)
             "011223000000" "311223235959" "010124000000")%string; reflexivity.
Defined.

End DateSort.

(** ** C6, C7: the local cache *)

Section CacheProperties.
Import Py sudep.

Variable requests_get_json : string -> result json.
Variable user_list : json.
Variable blob : Type.
Variable cPickle_dump : User -> blob.
Variable cPickle_load : blob -> result User.

Lemma strip_prefix_Users (s : string) : strip_prefix "Users/" ("Users/" ++ s) = Some s.
Proof. reflexivity. Qed.

(** [file_name in os.listdir('Users')] holds exactly for the files of the
    directory. *)
Lemma listed_iff (files : gmap string blob) (f : string) :
  existsb (String.eqb f) (map fst (map_to_list files)) = true <-> is_Some (files !! f).
Proof.
  rewrite existsb_exists. split.
  - intros (g & Hin & Heq). apply String.eqb_eq in Heq. subst g.
    apply in_map_iff in Hin as ([g b] & Hg & Hin). simpl in Hg. subst g.
    apply list_elem_of_In, elem_of_map_to_list in Hin. eauto.
  - intros [b Hb]. exists f. split; [|apply String.eqb_refl].
    apply in_map_iff. exists (f, b). split; [reflexivity|].
    now apply list_elem_of_In, elem_of_map_to_list.
Qed.

Lemma is_file_in_directory_Some (files : gmap string blob) (name : string) :
  _is_file_in_directory name (Some files) =
  (ok (bool_decide (is_Some (files !! (name ++ ".pkl")%string))), Some files).
Proof.
  unfold _is_file_in_directory, io_bind, os_listdir_Users, io_ret. cbn [ok].
  destruct (existsb (String.eqb (name ++ ".pkl")) (map fst (map_to_list files))) eqn:E.
  - apply listed_iff in E. rewrite bool_decide_eq_true_2 by exact E. reflexivity.
  - rewrite bool_decide_eq_false_2; [reflexivity|].
    intros H. apply listed_iff in H. congruence.
Qed.

Lemma look_for_and_create_Some (files : gmap string blob) :
  _look_for_and_create_users_folder (Some files) = (ok tt, Some files).
Proof. reflexivity. Qed.

Lemma look_for_and_create_None :
  _look_for_and_create_users_folder (blob := blob) None = (ok tt, Some ∅).
Proof. reflexivity. Qed.

Lemma io_bind_ok {A B : Type} (c : io blob A) (k : A -> io blob B)
  (fs fs' : filesystem blob) (a : A) :
  c fs = (ok a, fs') -> io_bind c k fs = k a fs'.
Proof. unfold io_bind. now intros ->. Qed.

(** C7.  When the file of a user already exists in [Users], [save] with
    [update=False] returns without error and leaves the directory, and so
    the bytes of that file, as they were. *)
Theorem save_no_update_is_noop (files : gmap string blob) (user : User) (data : blob) :
  files !! (user_name user ++ ".pkl")%string = Some data ->
  save cPickle_dump user false (Some files) = (ok tt, Some files).
Proof.
  intros H. unfold save.
  erewrite io_bind_ok by apply look_for_and_create_Some. cbn [negb].
  erewrite io_bind_ok by apply is_file_in_directory_Some.
  rewrite bool_decide_eq_true_2 by eauto.
  reflexivity.
Qed.

(** C6.  For a user whose name is a file-name component and a [cPickle]
    whose [load] inverts [dump], [save] followed by [get_user] without
    [reload] returns the very user stored, from the cache. *)
Theorem save_then_get_user (fs : filesystem blob) (user : User) :
  (forall u, cPickle_load (cPickle_dump u) = ok u) ->
  is_component (user_name user ++ ".pkl") = true ->
  exists fs1,
    save cPickle_dump user true fs = (ok tt, fs1) /\
    get_user requests_get_json user_list cPickle_dump cPickle_load
      (user_name user) false fs1 = (ok (Some user), fs1).
Proof.
  intros Hload Hname.
  set (files := match fs with Some files => files | None => ∅ end).
  exists (Some (<[(user_name user ++ ".pkl")%string := cPickle_dump user]> files)).
  split.
  - unfold save.
    assert (Hdir : _look_for_and_create_users_folder fs = (ok tt, Some files))
      by (destruct fs; reflexivity).
    erewrite io_bind_ok by exact Hdir. cbn [negb]. unfold open_wb.
    now rewrite strip_prefix_Users, Hname.
  - unfold get_user.
    erewrite io_bind_ok by apply look_for_and_create_Some.
    erewrite io_bind_ok by apply is_file_in_directory_Some.
    rewrite bool_decide_eq_true_2 by (rewrite lookup_insert_eq; eauto).
    cbn [andb negb].
    erewrite io_bind_ok; [reflexivity|].
    unfold load. erewrite io_bind_ok.
    + unfold io_lift. now rewrite Hload.
    + unfold open_rb. now rewrite strip_prefix_Users, lookup_insert_eq.
Qed.

End CacheProperties.

Section CacheWitnesses.
Import Py sudep.

Lemma save_no_update_is_noop_witness :
  save (fun u => u) example_user false (Some {[ "SM36.pkl"%string := example_user ]}) =
  (ok tt, Some {[ "SM36.pkl"%string := example_user ]}).
Proof.
  apply (save_no_update_is_noop User (fun u => u) _ example_user example_user).
  apply lookup_singleton_eq.
Defined.

Lemma save_then_get_user_witness :
  exists fs1,
    save (fun u => u) example_user true None = (ok tt, fs1) /\
    get_user (fun _ => ok JNull) (JArr []) (fun u => u) ok "SM36" false fs1 =
    (ok (Some example_user), fs1).
Proof.
  apply (save_then_get_user (fun _ => ok JNull) (JArr []) User (fun u => u) ok
           None example_user); reflexivity.
Defined.

End CacheWitnesses.

(** ** C8, C9, C10: assembling a user from the database *)

Section Assembly.
Import Py sudep.

Variable requests_get_json : string -> result json.
Variable user_list : json.

(** C8, as amended.  For a user name other than ['all'] whose profile
    response is empty (a JSON null or an empty object), the profile fetch
    succeeds with an empty dictionary, but no [Profile] is built and no
    field defaults: [Profile] fails with [KeyError] on its first field,
    ['Date of Birth'], and so does the assembly of the [User]. *)
Theorem empty_profile_is_key_error (name : string) :
  String.eqb name "all" = false ->
  requests_get_json (base_url ++ name ++ "/MetaData/Profile.json") = ok JNull \/
  requests_get_json (base_url ++ name ++ "/MetaData/Profile.json") = ok (JObj ∅) ->
  get_profile_for requests_get_json user_list name = ok (JObj ∅) /\
  Profile_init requests_get_json user_list name = raise (KeyError "Date of Birth") /\
  User_init requests_get_json user_list name = raise (KeyError "Date of Birth").
Proof.
  intros Hname Hempty.
  assert (Hp : get_profile_for requests_get_json user_list name = ok (JObj ∅)).
  { unfold get_profile_for. rewrite Hname.
    unfold _get_individual_profile_for, download_json_data_from.
    destruct Hempty as [-> | ->]; reflexivity. }
  assert (Hi : Profile_init requests_get_json user_list name
               = raise (KeyError "Date of Birth")).
  { unfold Profile_init. rewrite Hp. reflexivity. }
  repeat split; try assumption.
  unfold User_init. now rewrite Hi.
Qed.

(** C10.  When the listing of a user, as [download_json_data_from]
    returns it, is a dictionary without the key ['MetaData'],
    [get_session_dates_for] raises [KeyError] for that key, whatever
    [readable] is; and whenever [get_session_dates_for] returns dates, the
    response was a dictionary that holds the key. *)
Theorem session_dates_need_metadata (user : string) (readable : bool) :
  (forall m : gmap string json,
     download_json_data_from requests_get_json
       (base_url ++ user ++ ".json?shallow=true") = ok (JObj m) ->
     m !! "MetaData"%string = None ->
     get_session_dates_for requests_get_json user readable
     = raise (KeyError "MetaData")) /\
  (forall ds,
     get_session_dates_for requests_get_json user readable = ok ds ->
     exists m meta,
       requests_get_json (base_url ++ user ++ ".json?shallow=true") = ok (JObj m) /\
       m !! "MetaData"%string = Some meta).
Proof.
  split.
  - intros m Hget Hmeta. unfold get_session_dates_for.
    rewrite Hget. cbn [Py.bind ok]. now rewrite Hmeta.
  - intros ds. unfold get_session_dates_for, download_json_data_from.
    destruct (requests_get_json (base_url ++ user ++ ".json?shallow=true"))
      as [e|[| | | | |m]]; try discriminate.
    cbn [Py.bind ok].
    destruct (m !! "MetaData"%string) as [meta|] eqn:Hmeta; [|discriminate].
    intros _. eauto.
Qed.

End Assembly.

Section AssemblyWitnesses.
Import Py sudep.

(** With an empty profile response no [Profile] and no [User] is built. *)
Lemma empty_profile_no_default :
  Profile_init empty_database (JArr []) "SM36" = raise (KeyError "Date of Birth") /\
  User_init empty_database (JArr []) "SM36" = raise (KeyError "Date of Birth") /\
  (forall p, Profile_init empty_database (JArr []) "SM36" <> ok p) /\
  (forall u, User_init empty_database (JArr []) "SM36" <> ok u).
Proof.
  assert (Hp : Profile_init empty_database (JArr []) "SM36"
               = raise (KeyError "Date of Birth")) by reflexivity.
  assert (Hu : User_init empty_database (JArr []) "SM36"
               = raise (KeyError "Date of Birth"))
    by (unfold User_init; now rewrite Hp).
  repeat split; try assumption.
  - intros p. rewrite Hp. discriminate.
  - intros u. rewrite Hu. discriminate.
Qed.

Lemma empty_profile_is_key_error_witness :
  get_profile_for empty_database (JArr []) "SM36" = ok (JObj ∅) /\
  Profile_init empty_database (JArr []) "SM36" = raise (KeyError "Date of Birth") /\
  User_init empty_database (JArr []) "SM36" = raise (KeyError "Date of Birth").
Proof.
  apply (empty_profile_is_key_error empty_database (JArr []) "SM36").
  - reflexivity.
  - left. reflexivity.
Defined.

(** The dates of the example listing come out in chronological order:
    the token of December '23 before the token of January '24, which
    precedes it as a string. *)
Lemma session_dates_example :
  get_session_dates_for example_database "SM36" false =
  ok ["150623080000"; "011223120000"; "010124120000"]%string /\
  String.compare "010124120000" "011223120000" = Lt.
Proof. split; vm_compute; reflexivity. Qed.

Lemma session_dates_need_metadata_witness :
  get_session_dates_for empty_database "SM36" false = raise (KeyError "MetaData") /\
  exists m meta,
    example_database (base_url ++ "SM36" ++ ".json?shallow=true") = ok (JObj m) /\
    m !! "MetaData"%string = Some meta.
Proof.
  split.
  - apply (proj1 (session_dates_need_metadata empty_database "SM36" false) ∅);
      reflexivity.
  - apply (proj2 (session_dates_need_metadata example_database "SM36" false)
             ["150623080000"; "011223120000"; "010124120000"]%string).
    vm_compute. reflexivity.
Defined.

(** C9.  On the listing that holds ['MetaData'] and the sessions of
    15 June '23, 1 December '23 and 1 January '24, neither result of
    [get_session_dates_for] holds the reserved key.  Without [readable]
    the tokens come out in the order of time.  With [readable=True] the
    formatted dates are the same three, sorted by [_date_sort] at the
    character places of the token, which in [dd.MM.yy hh:mm:ss] no longer
    hold the year: January '24 comes out before December '23 and June
    '23 last, which is not the order of time. *)
Theorem session_dates_readable_order :
  get_session_dates_for example_database "SM36" false =
  ok ["150623080000"; "011223120000"; "010124120000"]%string /\
  chronological token_time ["150623080000"; "011223120000"; "010124120000"]%string /\
  get_session_dates_for example_database "SM36" true =
  ok ["01.01.24 12:00:00"; "01.12.23 12:00:00"; "15.06.23 08:00:00"]%string /\
  ["01.01.24 12:00:00"; "01.12.23 12:00:00"; "15.06.23 08:00:00"]%string =
  map _lex ["010124120000"; "011223120000"; "150623080000"]%string /\
  map readable_time ["01.01.24 12:00:00"; "01.12.23 12:00:00"; "15.06.23 08:00:00"]%string =
  [240101120000; 231201120000; 230615080000]%N /\
  ~ chronological readable_time
      ["01.01.24 12:00:00"; "01.12.23 12:00:00"; "15.06.23 08:00:00"]%string /\
  ~ In "MetaData"%string ["150623080000"; "011223120000"; "010124120000"]%string /\
  ~ In "MetaData"%string
      ["01.01.24 12:00:00"; "01.12.23 12:00:00"; "15.06.23 08:00:00"]%string.
Proof.
  split; [vm_compute; reflexivity|].
  split; [repeat constructor; vm_compute; discriminate|].
  split; [vm_compute; reflexivity|].
  split; [vm_compute; reflexivity|].
  split; [vm_compute; reflexivity|].
  split; [|split].
  - unfold chronological. intros H.
    apply Sorted_inv in H as [_ H]. apply HdRel_inv in H.
    vm_compute in H. now apply H.
  - cbn [In]. intros [H|[H|[H|[]]]]; discriminate H.
  - cbn [In]. intros [H|[H|[H|[]]]]; discriminate H.
Qed.

End AssemblyWitnesses.

(** * Further properties of the code *)

(** ** The local cache beyond the round trip *)

Section CacheBehaviour.
Import Py sudep.

Variable requests_get_json : string -> result json.
Variable user_list : json.
Variable blob : Type.
Variable cPickle_dump : User -> blob.
Variable cPickle_load : blob -> result User.

Lemma io_bind_lift {A B : Type} (r : result A) (k : A -> io blob B)
  (fs : filesystem blob) :
  io_bind (io_lift r) k fs =
  match r with inl e => (inl e, fs) | inr a => k a fs end.
Proof. unfold io_bind, io_lift. now destruct r. Qed.

Lemma look_for_and_create_any (fs : filesystem blob) :
  _look_for_and_create_users_folder fs = (ok tt, Some (files_of fs)).
Proof. destruct fs; reflexivity. Qed.

Lemma User_init_name (name : string) (user : User) :
  User_init requests_get_json user_list name = ok user -> user_name user = name.
Proof.
  unfold User_init.
  destruct (Profile_init requests_get_json user_list name); [discriminate|].
  cbn [Py.bind].
  destruct (get_events_for requests_get_json name true); [discriminate|].
  cbn [Py.bind].
  destruct (get_session_for requests_get_json name (SessionName "all")); [discriminate|].
  cbn [Py.bind].
  destruct (get_session_dates_for requests_get_json name false); [discriminate|].
  cbn [Py.bind ok]. now intros [= <-].
Qed.

Lemma save_update_writes (fs : filesystem blob) (user : User) :
  is_component (user_name user ++ ".pkl") = true ->
  save cPickle_dump user true fs =
  (ok tt, Some (<[(user_name user ++ ".pkl")%string := cPickle_dump user]> (files_of fs))).
Proof.
  intros Hname. unfold save.
  erewrite io_bind_ok by apply look_for_and_create_any. cbn [negb]. unfold open_wb.
  now rewrite strip_prefix_Users, Hname.
Qed.

(** X1.  [get_user] for a name that is not served from the cache (no file
    of that name, or [reload] set) and is not in [user_list] returns
    [None]; the folder [Users] is created when missing and no file is
    written. *)
Theorem get_user_unknown (fs : filesystem blob) (name : string) (reload : bool) :
  files_of fs !! (name ++ ".pkl")%string = None \/ reload = true ->
  contains user_list name = ok false ->
  get_user requests_get_json user_list cPickle_dump cPickle_load name reload fs =
  (ok None, Some (files_of fs)).
Proof.
  intros Hmiss Hknown. unfold get_user.
  erewrite io_bind_ok by apply look_for_and_create_any.
  erewrite io_bind_ok by apply is_file_in_directory_Some.
  assert (Hc : bool_decide (is_Some (files_of fs !! (name ++ ".pkl")%string))
               && negb reload = false).
  { destruct Hmiss as [Hmiss | ->].
    - rewrite bool_decide_eq_false_2; [reflexivity|].
      rewrite Hmiss. now intros [? ?].
    - apply andb_false_r. }
  rewrite Hc, io_bind_lift, Hknown. reflexivity.
Qed.

(** X2.  [get_user] for a name that is not served from the cache and is
    in [user_list]: when the download succeeds the user is returned and
    written to the cache under its name, the other files staying as they
    were; when the download fails, the exception is passed on and nothing
    is written. *)
Theorem get_user_downloads (fs : filesystem blob) (name : string) (reload : bool) :
  files_of fs !! (name ++ ".pkl")%string = None \/ reload = true ->
  contains user_list name = ok true ->
  is_component (name ++ ".pkl") = true ->
  (forall user,
     User_init requests_get_json user_list name = ok user ->
     get_user requests_get_json user_list cPickle_dump cPickle_load name reload fs =
     (ok (Some user),
      Some (<[(name ++ ".pkl")%string := cPickle_dump user]> (files_of fs)))) /\
  (forall e,
     User_init requests_get_json user_list name = raise e ->
     get_user requests_get_json user_list cPickle_dump cPickle_load name reload fs =
     (raise e, Some (files_of fs))).
Proof.
  intros Hmiss Hknown Hname.
  assert (Hc : bool_decide (is_Some (files_of fs !! (name ++ ".pkl")%string))
               && negb reload = false).
  { destruct Hmiss as [Hmiss | ->].
    - rewrite bool_decide_eq_false_2; [reflexivity|].
      rewrite Hmiss. now intros [? ?].
    - apply andb_false_r. }
  split.
  - intros user Huser. unfold get_user.
    erewrite io_bind_ok by apply look_for_and_create_any.
    erewrite io_bind_ok by apply is_file_in_directory_Some.
    rewrite Hc, io_bind_lift, Hknown. cbv beta iota delta [ok].
    rewrite io_bind_lift, Huser. cbv beta iota delta [ok].
    pose proof (User_init_name _ _ Huser) as Hn.
    erewrite io_bind_ok.
    2:{ apply save_update_writes. now rewrite Hn. }
    now rewrite Hn.
  - intros e Huser. unfold get_user.
    erewrite io_bind_ok by apply look_for_and_create_any.
    erewrite io_bind_ok by apply is_file_in_directory_Some.
    rewrite Hc, io_bind_lift, Hknown. cbv beta iota delta [ok].
    now rewrite io_bind_lift, Huser.
Qed.

(** X3.  When the file of a user exists and cannot be unpickled,
    [get_user] without [reload] passes the exception of [cPickle.load]
    on: it does not fall back on the database, whatever the database
    holds, and leaves the folder as it was. *)
Theorem get_user_corrupt_cache (files : gmap string blob) (name : string)
  (data : blob) (e : exn) :
  files !! (name ++ ".pkl")%string = Some data ->
  cPickle_load data = raise e ->
  get_user requests_get_json user_list cPickle_dump cPickle_load name false (Some files) =
  (raise e, Some files).
Proof.
  intros Hfile Hload. unfold get_user.
  erewrite io_bind_ok by apply look_for_and_create_Some.
  erewrite io_bind_ok by apply is_file_in_directory_Some.
  rewrite bool_decide_eq_true_2 by eauto. cbn [andb negb].
  assert (Hl : load cPickle_load name (Some files) = (raise e, Some files)).
  { unfold load. erewrite io_bind_ok.
    - unfold io_lift. now rewrite Hload.
    - unfold open_rb. now rewrite strip_prefix_Users, Hfile. }
  unfold io_bind. now rewrite Hl.
Qed.

(** The three outcomes of [save]: nothing written, the file of the user
    written, or [open] refusing the name. *)
Lemma save_cases (fs : filesystem blob) (user : User) (update : bool) :
  save cPickle_dump user update fs = (ok tt, Some (files_of fs)) \/
  save cPickle_dump user update fs =
    (ok tt, Some (<[(user_name user ++ ".pkl")%string := cPickle_dump user]> (files_of fs))) \/
  save cPickle_dump user update fs = (raise IOError, Some (files_of fs)).
Proof.
  assert (Hw : open_wb ("Users/" ++ user_name user ++ ".pkl") (cPickle_dump user)
                 (Some (files_of fs)) =
               (ok tt, Some (<[(user_name user ++ ".pkl")%string := cPickle_dump user]>
                               (files_of fs))) \/
               open_wb ("Users/" ++ user_name user ++ ".pkl") (cPickle_dump user)
                 (Some (files_of fs)) = (raise IOError, Some (files_of fs))).
  { unfold open_wb. rewrite strip_prefix_Users.
    destruct (is_component (user_name user ++ ".pkl")); auto. }
  unfold save. erewrite io_bind_ok by apply look_for_and_create_any.
  destruct update; cbn [negb].
  - tauto.
  - erewrite io_bind_ok by apply is_file_in_directory_Some.
    destruct (bool_decide (is_Some (files_of fs !! (user_name user ++ ".pkl")%string)));
      [left; reflexivity | tauto].
Qed.

Lemma frame_of_insert (files : gmap string blob) (f : string) (data : blob) :
  (forall g, g <> f -> <[f := data]> files !! g = files !! g) /\
  (forall g, is_Some (files !! g) -> is_Some (<[f := data]> files !! g)).
Proof.
  split.
  - intros g Hg. now rewrite lookup_insert_ne.
  - intros g Hg. destruct (decide (f = g)) as [->|Hne].
    + rewrite lookup_insert_eq. eauto.
    + now rewrite lookup_insert_ne.
Qed.

(** X4.  For a user whose name is a file-name component, [save],
    whatever [update] is, leaves the folder [Users] in place, changes no
    file but the one of its user and removes none. *)
Theorem save_frame (fs : filesystem blob) (user : User) (update : bool) :
  is_component (user_name user ++ ".pkl") = true ->
  exists files',
    snd (save cPickle_dump user update fs) = Some files' /\
    (forall g, g <> (user_name user ++ ".pkl")%string ->
               files' !! g = files_of fs !! g) /\
    (forall g, is_Some (files_of fs !! g) -> is_Some (files' !! g)).
Proof.
  intros _. destruct (save_cases fs user update) as [H | [H | H]]; rewrite H; cbn [snd];
    eexists; (split; [reflexivity|]); auto; apply frame_of_insert.
Qed.

(** X5.  With [update=False] and no file of the user in [Users], [save]
    writes the file exactly as with [update=True]: the option only
    protects an existing entry. *)
Theorem save_no_update_absent (fs : filesystem blob) (user : User) :
  files_of fs !! (user_name user ++ ".pkl")%string = None ->
  save cPickle_dump user false fs = save cPickle_dump user true fs.
Proof.
  intros Hnone. unfold save.
  erewrite !io_bind_ok by apply look_for_and_create_any. cbn [negb].
  erewrite io_bind_ok by apply is_file_in_directory_Some.
  rewrite bool_decide_eq_false_2; [reflexivity|].
  rewrite Hnone. now intros [? ?].
Qed.

(** [load] reads: it never changes the folder. *)
Lemma load_state (name : string) (fs : filesystem blob) :
  snd (load cPickle_load name fs) = fs.
Proof.
  unfold load, io_bind, open_rb, io_lift.
  destruct (strip_prefix "Users/" ("Users/" ++ name ++ ".pkl")) as [f|]; [|reflexivity].
  destruct fs as [files|]; [|reflexivity].
  now destruct (files !! f).
Qed.

(** X6.  For a name that is a file-name component, [get_user],
    whatever its outcome (a user, [None] or an exception), leaves the
    folder [Users] in place, changes no file but the one of the requested
    name and removes none. *)
Theorem get_user_frame (fs : filesystem blob) (name : string) (reload : bool) :
  is_component (name ++ ".pkl") = true ->
  exists files',
    snd (get_user requests_get_json user_list cPickle_dump cPickle_load name reload fs)
    = Some files' /\
    (forall g, g <> (name ++ ".pkl")%string -> files' !! g = files_of fs !! g) /\
    (forall g, is_Some (files_of fs !! g) -> is_Some (files' !! g)).
Proof.
  intros _.
  assert (Hsame : exists files', Some (files_of fs) = Some files' /\
            (forall g, g <> (name ++ ".pkl")%string -> files' !! g = files_of fs !! g) /\
            (forall g, is_Some (files_of fs !! g) -> is_Some (files' !! g)))
    by (eexists; split; [reflexivity|]; auto).
  unfold get_user.
  erewrite io_bind_ok by apply look_for_and_create_any.
  erewrite io_bind_ok by apply is_file_in_directory_Some.
  destruct (bool_decide (is_Some (files_of fs !! (name ++ ".pkl")%string)) && negb reload).
  - pose proof (load_state name (Some (files_of fs))) as Hl. unfold io_bind.
    destruct (load cPickle_load name (Some (files_of fs))) as [[e|user] fs'].
    all: cbn [snd io_ret] in *; subst fs'; exact Hsame.
  - rewrite io_bind_lift.
    destruct (contains user_list name) as [e|[|]]; try exact Hsame.
    rewrite io_bind_lift.
    destruct (User_init requests_get_json user_list name) as [e|user] eqn:Huser;
      [exact Hsame|].
    apply User_init_name in Huser. unfold io_bind.
    destruct (save_cases (Some (files_of fs)) user true) as [H | [H | H]];
      cbn [files_of] in H; rewrite H; try exact Hsame.
    cbn [io_ret snd]. rewrite Huser. eexists. split; [reflexivity|].
    apply frame_of_insert.
Qed.

End CacheBehaviour.

Section CacheBehaviourWitnesses.
Import Py sudep.

Lemma get_user_unknown_witness :
  get_user empty_database (JArr [JStr "SM36"]) (fun u : User => u) ok "SM99" false None =
  (ok None, Some ∅).
Proof.
  apply (get_user_unknown empty_database (JArr [JStr "SM36"]) User (fun u => u) ok
           None "SM99" false).
  - left. apply lookup_empty.
  - reflexivity.
Defined.

Lemma get_user_downloads_witness :
  exists user,
    get_user recorded_database (JArr [JStr "SM36"]) (fun u : User => u) ok "SM36" true
      (Some {[ "SM36.pkl"%string := example_user ]}) =
    (ok (Some user),
     Some (<[ ("SM36" ++ ".pkl")%string := user ]>
             (files_of (Some {[ "SM36.pkl"%string := example_user ]})))).
Proof.
  eexists.
  apply (proj1 (get_user_downloads recorded_database (JArr [JStr "SM36"]) User
                  (fun u => u) ok (Some {[ "SM36.pkl"%string := example_user ]})
                  "SM36" true (or_intror eq_refl) eq_refl eq_refl)).
  vm_compute. reflexivity.
Defined.

Lemma get_user_corrupt_cache_witness :
  get_user recorded_database (JArr [JStr "SM36"]) user_name
    (fun _ : string => raise ValueError) "SM36" false
    (Some {[ "SM36.pkl"%string := "truncated"%string ]}) =
  (raise ValueError, Some {[ "SM36.pkl"%string := "truncated"%string ]}).
Proof.
  apply (get_user_corrupt_cache recorded_database (JArr [JStr "SM36"]) string user_name
           (fun _ => raise ValueError) _ "SM36" "truncated"%string ValueError).
  - apply lookup_singleton_eq.
  - reflexivity.
Defined.

Lemma save_frame_witness :
  exists files',
    snd (save (fun u : User => u) example_user true
           (Some {[ "SM8.pkl"%string := example_user ]})) = Some files' /\
    (forall g, g <> (user_name example_user ++ ".pkl")%string ->
               files' !! g = files_of (Some {[ "SM8.pkl"%string := example_user ]}) !! g) /\
    (forall g, is_Some (files_of (Some {[ "SM8.pkl"%string := example_user ]}) !! g) ->
               is_Some (files' !! g)).
Proof.
  apply (save_frame User (fun u => u) (Some {[ "SM8.pkl"%string := example_user ]})
           example_user true).
  reflexivity.
Defined.

Lemma get_user_frame_witness :
  exists files',
    snd (get_user recorded_database (JArr [JStr "SM36"]) (fun u : User => u) ok
           "SM36" true (Some {[ "SM8.pkl"%string := example_user ]})) = Some files' /\
    (forall g, g <> ("SM36" ++ ".pkl")%string ->
               files' !! g = files_of (Some {[ "SM8.pkl"%string := example_user ]}) !! g) /\
    (forall g, is_Some (files_of (Some {[ "SM8.pkl"%string := example_user ]}) !! g) ->
               is_Some (files' !! g)).
Proof.
  apply (get_user_frame recorded_database (JArr [JStr "SM36"]) User (fun u => u) ok
           (Some {[ "SM8.pkl"%string := example_user ]}) "SM36" true).
  reflexivity.
Defined.

Lemma save_no_update_absent_witness :
  save (fun u : User => u) example_user false None =
  save (fun u : User => u) example_user true None.
Proof.
  apply (save_no_update_absent User (fun u => u) None example_user).
  apply lookup_empty.
Defined.

End CacheBehaviourWitnesses.

(** ** Reading the database *)

Section Reading.
Import Py sudep.

Variable requests_get_json : string -> result json.
Variable user_list : json.

(** X7.  [download_json_data_from] never returns a JSON null: a null
    body becomes the empty dictionary, every other body is returned as
    it is and every exception is passed on.  The [None] test of
    [_get_individual_profile_for] therefore never fires: the function is
    the download of the profile URL. *)
Theorem download_never_null (url user : string) :
  (forall j, download_json_data_from requests_get_json url = ok j -> j <> JNull) /\
  (requests_get_json url = ok JNull ->
   download_json_data_from requests_get_json url = ok (JObj ∅)) /\
  (forall j, requests_get_json url = ok j -> j <> JNull ->
             download_json_data_from requests_get_json url = ok j) /\
  (forall e, requests_get_json url = raise e ->
             download_json_data_from requests_get_json url = raise e) /\
  _get_individual_profile_for requests_get_json user =
  download_json_data_from requests_get_json (base_url ++ user ++ "/MetaData/Profile.json").
Proof.
  unfold _get_individual_profile_for, download_json_data_from.
  repeat split.
  - intros j. destruct (requests_get_json url) as [e|[]]; cbn [Py.bind ok];
      try discriminate; intros [= <-]; discriminate.
  - now intros ->.
  - intros j -> Hj. now destruct j.
  - now intros e ->.
  - now destruct (requests_get_json (base_url ++ user ++ "/MetaData/Profile.json"))
      as [e|[]].
Qed.

Lemma individual_profile_download (user : string) :
  _get_individual_profile_for requests_get_json user =
  download_json_data_from requests_get_json (base_url ++ user ++ "/MetaData/Profile.json").
Proof.
  unfold _get_individual_profile_for, download_json_data_from.
  now destruct (requests_get_json (base_url ++ user ++ "/MetaData/Profile.json"))
    as [e|[]].
Qed.

(** X8.  For a user name other than ['all'], [Profile] is built exactly
    when the profile response is a dictionary holding the four keys, its
    fields being the four values; and when the dictionary lacks a key,
    the [KeyError] names the first missing one in the order date of birth,
    gender, height, weight. *)
Theorem Profile_init_fields (name : string) :
  String.eqb name "all" = false ->
  (forall p,
     Profile_init requests_get_json user_list name = ok p <->
     exists m,
       download_json_data_from requests_get_json
         (base_url ++ name ++ "/MetaData/Profile.json") = ok (JObj m) /\
       m !! "Date of Birth"%string = Some (dob p) /\
       m !! "Gender"%string = Some (gender p) /\
       m !! "Height (m)"%string = Some (height p) /\
       m !! "Weight (kg)"%string = Some (weight p)) /\
  (forall m key,
     download_json_data_from requests_get_json
       (base_url ++ name ++ "/MetaData/Profile.json") = ok (JObj m) ->
     List.find (fun k => match m !! k with None => true | Some _ => false end)
               ["Date of Birth"; "Gender"; "Height (m)"; "Weight (kg)"]%string
     = Some key ->
     Profile_init requests_get_json user_list name = raise (KeyError key)).
Proof.
  intros Hname.
  assert (Hp : get_profile_for requests_get_json user_list name =
               download_json_data_from requests_get_json
                 (base_url ++ name ++ "/MetaData/Profile.json"))
    by (unfold get_profile_for; rewrite Hname; apply individual_profile_download).
  unfold Profile_init. rewrite Hp. clear Hp.
  destruct (download_json_data_from requests_get_json
              (base_url ++ name ++ "/MetaData/Profile.json")) as [e|j].
  { split; [|discriminate]. intros p. split; [discriminate|].
    intros (m & H & _). discriminate. }
  split.
  - intros p. cbn [Py.bind]. split.
    + destruct j as [| | | | |m]; try discriminate. unfold getitem.
      destruct (m !! "Date of Birth"%string) as [v1|] eqn:H1; [|discriminate].
      destruct (m !! "Gender"%string) as [v2|] eqn:H2; [|discriminate].
      destruct (m !! "Height (m)"%string) as [v3|] eqn:H3; [|discriminate].
      destruct (m !! "Weight (kg)"%string) as [v4|] eqn:H4; [|discriminate].
      cbn [Py.bind ok]. intros [= <-]. exists m. cbn [dob gender height weight].
      rewrite H1, H2, H3, H4. auto.
    + intros (m & [= ->] & H1 & H2 & H3 & H4). unfold getitem.
      rewrite H1, H2, H3, H4. cbn [Py.bind ok]. now destruct p.
  - intros m key [= ->]. cbn [Py.bind getitem List.find].
    destruct (m !! "Date of Birth"%string); [|now intros [= <-]].
    destruct (m !! "Gender"%string); [|now intros [= <-]].
    destruct (m !! "Height (m)"%string); [|now intros [= <-]].
    destruct (m !! "Weight (kg)"%string); [|now intros [= <-]].
    discriminate.
Qed.

Lemma string_append_assoc (a b c : string) :
  ((a ++ b) ++ c)%string = (a ++ (b ++ c))%string.
Proof.
  induction a as [|x a IH]; [reflexivity|].
  change (String x ((a ++ b) ++ c) = String x (a ++ (b ++ c)))%string.
  now f_equal.
Qed.

(** What a session that has been built has read. *)
Lemma Session_init_ok (m : gmap string json) (s : Session) :
  Session_init (JObj m) = ok s ->
  m !! "Accelerometer sampling frequency"%string = Some (accel_sampling_freq s) /\
  m !! "Duration"%string = Some (duration s) /\
  (accel_data s = None <-> m !! "Accelerometer data"%string = None) /\
  (heart_data s = None <-> m !! "Heartrate data"%string = None).
Proof.
  unfold Session_init, getitem.
  destruct (m !! "Accelerometer sampling frequency"%string) as [freq|]; [|discriminate].
  destruct (m !! "Duration"%string) as [dur|]; [|discriminate].
  cbn [Py.bind ok].
  unfold _convert_accel_data_to_array_for, _convert_heart_data_to_array_for, contains.
  cbn [Py.bind ok].
  destruct (m !! "Accelerometer data"%string) as [accel|] eqn:Ha.
  + rewrite bool_decide_eq_true_2 by eauto. unfold getitem at 1. rewrite Ha.
    cbn [Py.bind ok].
    destruct (getitem accel "x") as [|x]; [discriminate|].
    destruct (getitem accel "y") as [|y]; [discriminate|].
    destruct (getitem accel "z") as [|z]; [discriminate|].
    cbn [Py.bind ok].
    destruct (m !! "Heartrate data"%string) as [heart|] eqn:Hh.
    * rewrite bool_decide_eq_true_2 by eauto. unfold getitem at 1. rewrite Hh.
      cbn [Py.bind ok].
      destruct (getitem heart "Times") as [|t]; [discriminate|].
      destruct (getitem heart "Heartrate") as [|hr]; [discriminate|].
      cbn [Py.bind ok]. intros [= <-]. cbn. repeat split; discriminate.
    * rewrite bool_decide_eq_false_2 by (now intros [? ?]).
      cbn [Py.bind ok]. intros [= <-]. cbn. repeat split; discriminate.
  + rewrite bool_decide_eq_false_2 by (now intros [? ?]). cbn [Py.bind ok].
    destruct (m !! "Heartrate data"%string) as [heart|] eqn:Hh.
    * rewrite bool_decide_eq_true_2 by eauto. unfold getitem at 1. rewrite Hh.
      cbn [Py.bind ok].
      destruct (getitem heart "Times") as [|t]; [discriminate|].
      destruct (getitem heart "Heartrate") as [|hr]; [discriminate|].
      cbn [Py.bind ok]. intros [= <-]. cbn. repeat split; discriminate.
    * rewrite bool_decide_eq_false_2 by (now intros [? ?]).
      cbn [Py.bind ok]. intros [= <-]. cbn. repeat split; discriminate.
Qed.

(** X9.  A session is built from a dictionary that holds the sampling
    frequency and the duration; each data channel is kept when its key is
    present and is the sentinel exactly when the key is absent, which is
    no error.  A session that does not exist (a null response) raises
    [KeyError] for the sampling frequency. *)
Theorem Session_init_channels (m : gmap string json) :
  (forall s,
     Session_init (JObj m) = ok s ->
     m !! "Accelerometer sampling frequency"%string = Some (accel_sampling_freq s) /\
     m !! "Duration"%string = Some (duration s) /\
     (accel_data s = None <-> m !! "Accelerometer data"%string = None) /\
     (heart_data s = None <-> m !! "Heartrate data"%string = None)) /\
  (forall freq dur,
     m !! "Accelerometer sampling frequency"%string = Some freq ->
     m !! "Duration"%string = Some dur ->
     m !! "Accelerometer data"%string = None ->
     m !! "Heartrate data"%string = None ->
     Session_init (JObj m) = ok (mkSession freq dur None None)) /\
  (forall session user,
     requests_get_json (base_url ++ user ++ "/" ++ session ++ ".json") = ok JNull ->
     _get_single requests_get_json session user =
     raise (KeyError "Accelerometer sampling frequency")).
Proof.
  split; [|split].
  - intros s. apply Session_init_ok.
  - intros freq dur Hf Hd Ha Hh. unfold Session_init, getitem. rewrite Hf, Hd.
    cbn [Py.bind ok].
    unfold _convert_accel_data_to_array_for, _convert_heart_data_to_array_for, contains.
    cbn [Py.bind ok]. rewrite Ha, Hh.
    rewrite bool_decide_eq_false_2 by (now intros [? ?]). reflexivity.
  - intros session user Hnull. unfold _get_single, download_json_data_from.
    rewrite Hnull. reflexivity.
Qed.

(** X10.  A user without events: the null response gives the empty
    dictionary with [event_type=True] and the empty list of dates
    without it; neither call fails. *)
Theorem get_events_for_empty (user : string) :
  (requests_get_json (base_url ++ user ++ "/MetaData/Events.json") = ok JNull ->
   get_events_for requests_get_json user true = ok (JObj ∅)) /\
  (requests_get_json (base_url ++ user ++ "/MetaData/Events.json?shallow=true")
   = ok JNull ->
   get_events_for requests_get_json user false = ok (JArr [])).
Proof.
  unfold get_events_for, download_json_data_from. split; intros H.
  - now rewrite H.
  - replace ((base_url ++ user ++ "/MetaData/Events.json") ++ "?shallow=true")%string
      with (base_url ++ user ++ "/MetaData/Events.json?shallow=true")%string.
    + rewrite H. cbn [Py.bind ok]. unfold keys. now rewrite map_to_list_empty.
    + now rewrite !string_append_assoc.
Qed.

(** The loop [for x in l: d[x] = f(x)], stopping at the first
    exception. *)
Lemma fold_insert_raise {V : Type} (f : string -> result V) (l : list string) (e : exn) :
  List.fold_left (fun (acc : result (gmap string V)) x =>
                    let* d := acc in let* v := f x in ok (<[x := v]> d))
                 l (inl e) = inl e.
Proof. induction l as [|x l IH]; [reflexivity | exact IH]. Qed.

Lemma fold_insert_ok {V : Type} (f : string -> result V) (l : list string)
  (d0 d : gmap string V) :
  List.fold_left (fun (acc : result (gmap string V)) x =>
                    let* d := acc in let* v := f x in ok (<[x := v]> d))
                 l (ok d0) = ok d ->
  (forall x, In x l -> exists v, f x = ok v) /\
  (forall x v, d !! x = Some v <->
               (In x l /\ f x = ok v) \/ (~ In x l /\ d0 !! x = Some v)).
Proof.
  revert d0. induction l as [|y l IH]; intros d0.
  - intros [= <-]. split; [intros x []|]. intros x v. simpl. tauto.
  - cbn [List.fold_left Py.bind ok].
    destruct (f y) as [e|vy] eqn:Hy.
    { cbn [Py.bind]. rewrite (fold_insert_raise f l e). discriminate. }
    cbn [Py.bind ok]. intros H. apply IH in H as [Hall Hd]. split.
    + intros x [<-|Hx]; eauto.
    + intros x v. rewrite Hd. cbn [In].
      destruct (decide (y = x)) as [->|Hne].
      * rewrite lookup_insert_eq. split.
        -- intros [[Hin Hv]|[Hnin [= <-]]]; left; auto.
        -- intros [[_ Hv]|[Hnin _]]; [|tauto].
           destruct (in_dec string_dec x l) as [Hin|Hnin]; [left; auto|].
           right. split; [exact Hnin|]. rewrite Hy in Hv. now injection Hv as ->.
      * rewrite lookup_insert_ne by exact Hne. tauto.
Qed.

Lemma fold_insert_all_ok {V : Type} (f : string -> result V) (l : list string)
  (d0 : gmap string V) :
  (forall x, In x l -> exists v, f x = ok v) ->
  exists d,
    List.fold_left (fun (acc : result (gmap string V)) x =>
                    let* d := acc in let* v := f x in ok (<[x := v]> d))
                   l (ok d0) = ok d.
Proof.
  revert d0. induction l as [|y l IH]; intros d0 Hall; [now exists d0|].
  destruct (Hall y (or_introl eq_refl)) as [vy Hy].
  cbn [List.fold_left Py.bind ok]. rewrite Hy. cbn [Py.bind ok].
  apply IH. intros x Hx. apply Hall. now right.
Qed.

(** X11.  [get_session_for] at a list of session names succeeds exactly
    when every session of the list can be built, and then returns a
    dictionary whose keys are the names of the list, each with the session
    built from its download. *)
Theorem get_session_for_list (user : string) (l : list string) :
  (forall r,
     get_session_for requests_get_json user (SessionList l) = ok r ->
     exists d,
       r = SessionDict d /\
       forall x s, d !! x = Some s <->
                   In x l /\ _get_single requests_get_json x user = ok s) /\
  ((exists r, get_session_for requests_get_json user (SessionList l) = ok r) <->
   forall x, In x l -> exists s, _get_single requests_get_json x user = ok s).
Proof.
  unfold get_session_for. cbn [Py.bind ok].
  split.
  - intros r.
    destruct (List.fold_left _ l (ok ∅)) as [e|d] eqn:Hf; [discriminate|].
    cbn [Py.bind ok]. intros [= <-]. exists d. split; [reflexivity|].
    apply fold_insert_ok in Hf as [_ Hd]. intros x s. rewrite Hd.
    rewrite lookup_empty. split; [intros [H|[_ H]]; [exact H | discriminate] | auto].
  - split.
    + intros [r Hr].
      destruct (List.fold_left _ l (ok ∅)) as [e|d] eqn:Hf; [discriminate|].
      now apply fold_insert_ok in Hf as [Hall _].
    + intros Hall.
      destruct (fold_insert_all_ok (fun x => _get_single requests_get_json x user)
                  l ∅ Hall) as [d Hd].
      exists (SessionDict d). now rewrite Hd.
Qed.

Lemma keys_delete (m : gmap string json) (k x : string) :
  In x (keys (delete k m)) <-> x <> k /\ is_Some (m !! x).
Proof.
  unfold keys. rewrite in_map_iff. split.
  - intros ([x' v] & Hx & Hin). simpl in Hx. subst x'.
    apply list_elem_of_In, elem_of_map_to_list in Hin.
    apply lookup_delete_Some in Hin as [Hne Hin]. split; [congruence | eauto].
  - intros [Hne [v Hv]]. exists (x, v). split; [reflexivity|].
    apply list_elem_of_In, elem_of_map_to_list, lookup_delete_Some.
    split; [congruence | exact Hv].
Qed.

(** What a successful [get_session_dates_for] has read. *)
Lemma get_session_dates_for_ok (user : string) (readable : bool) (ds : list string) :
  get_session_dates_for requests_get_json user readable = ok ds ->
  exists m meta,
    requests_get_json (base_url ++ user ++ ".json?shallow=true") = ok (JObj m) /\
    m !! "MetaData"%string = Some meta /\
    ds = if readable then _lex_multiple (delete "MetaData"%string m)
         else _date_sort (keys (delete "MetaData"%string m)).
Proof.
  unfold get_session_dates_for, download_json_data_from.
  destruct (requests_get_json (base_url ++ user ++ ".json?shallow=true"))
    as [e|[| | | | |m]]; try discriminate.
  cbn [Py.bind ok].
  destruct (m !! "MetaData"%string) as [meta|] eqn:Hmeta; [|discriminate].
  intros H. exists m, meta. split; [reflexivity|]. split; [exact Hmeta|].
  destruct readable; now injection H as <-.
Qed.

(** X12.  When the database answers alike throughout the assembly, a
    [User] that has been assembled keeps the name it was asked for; its
    [sessions] are a dictionary whose keys are exactly its [dates], so
    that every date indexes a session; and its [dates] are in the order
    of [_date_sort] and hold no ['MetaData']. *)
Theorem User_init_dates_index_sessions (name : string) (user : User) :
  User_init requests_get_json user_list name = ok user ->
  user_name user = name /\
  ~ In "MetaData"%string (dates user) /\
  Sorted (le_of date_leb) (dates user) /\
  exists d,
    sessions user = SessionDict d /\
    (forall x, In x (dates user) <-> is_Some (d !! x)) /\
    (forall x s, d !! x = Some s -> _get_single requests_get_json x name = ok s).
Proof.
  unfold User_init.
  destruct (Profile_init requests_get_json user_list name); [discriminate|].
  cbn [Py.bind].
  destruct (get_events_for requests_get_json name true); [discriminate|].
  cbn [Py.bind].
  unfold get_session_for. rewrite String.eqb_refl.
  destruct (get_session_dates_for requests_get_json name false) as [e|ds] eqn:Hds;
    [discriminate|].
  cbn [Py.bind ok].
  destruct (List.fold_left _ ds (ok ∅)) as [e|d] eqn:Hf; [discriminate|].
  cbn [Py.bind ok]. intros [= <-]. cbn [user_name dates sessions].
  apply get_session_dates_for_ok in Hds as (m & meta & _ & _ & ->).
  apply fold_insert_ok in Hf as [Hall Hd].
  split; [reflexivity|]. split; [|split].
  - intros Hin.
    apply (Permutation_in _ (Permutation_sym (list_sort_perm date_leb _))) in Hin.
    apply keys_delete in Hin. now destruct Hin.
  - apply list_sort_sorted, date_leb_total.
  - exists d. split; [reflexivity|]. split.
    + intros x. split.
      * intros Hin. destruct (Hall x Hin) as [s Hs]. exists s. apply Hd. auto.
      * intros [s Hs]. apply Hd in Hs as [[Hin _]|[_ Hs]]; [exact Hin|].
        now rewrite lookup_empty in Hs.
    + intros x s Hs. apply Hd in Hs as [[_ Hs]|[_ Hs]]; [exact Hs|].
      now rewrite lookup_empty in Hs.
Qed.

(** X13.  [get_session_dates_for] with [readable=True] succeeds exactly
    when it does without, with the same exception otherwise, and returns
    the formatted forms of the same dates, each as often, though not in
    the same order. *)
Theorem readable_dates_same_dates (user : string) :
  (forall ds,
     get_session_dates_for requests_get_json user false = ok ds ->
     exists dr,
       get_session_dates_for requests_get_json user true = ok dr /\
       Permutation (map _lex ds) dr) /\
  (forall e,
     get_session_dates_for requests_get_json user false = raise e ->
     get_session_dates_for requests_get_json user true = raise e).
Proof.
  unfold get_session_dates_for.
  destruct (download_json_data_from requests_get_json
              (base_url ++ user ++ ".json?shallow=true")) as [e|[| | | | |m]];
    cbn [Py.bind]; (split; [try discriminate | try (intros ? [= <-]; reflexivity)]);
    try discriminate.
  - destruct (m !! "MetaData"%string); [|discriminate].
    intros ds [= <-]. eexists. split; [reflexivity|].
    unfold _lex_multiple, _date_sort.
    rewrite <- (list_sort_perm date_leb (map _lex _)).
    apply Permutation_map, Permutation_sym, list_sort_perm.
  - destruct (m !! "MetaData"%string); [discriminate|]. now intros e [= <-].
Qed.

End Reading.

Section ReadingWitnesses.
Import Py sudep.

Lemma download_never_null_witness :
  JObj ∅ <> JNull /\
  download_json_data_from empty_database "https://sudepmonitor.firebaseio.com/UserList.json"
  = ok (JObj ∅) /\
  download_json_data_from (fun _ => ok (JArr [JStr "SM36"]))
    "https://sudepmonitor.firebaseio.com/UserList.json" = ok (JArr [JStr "SM36"]) /\
  download_json_data_from (fun _ => raise IOError)
    "https://sudepmonitor.firebaseio.com/UserList.json" = raise IOError.
Proof.
  split; [|split; [|split]].
  - apply (proj1 (download_never_null empty_database
                    "https://sudepmonitor.firebaseio.com/UserList.json" "SM36")
             (JObj ∅)).
    reflexivity.
  - apply (proj1 (proj2 (download_never_null empty_database
                           "https://sudepmonitor.firebaseio.com/UserList.json" "SM36"))).
    reflexivity.
  - apply (proj1 (proj2 (proj2 (download_never_null (fun _ => ok (JArr [JStr "SM36"]))
                                  "https://sudepmonitor.firebaseio.com/UserList.json"
                                  "SM36")))).
    + reflexivity.
    + discriminate.
  - apply (proj1 (proj2 (proj2 (proj2 (download_never_null (fun _ => raise IOError)
                                  "https://sudepmonitor.firebaseio.com/UserList.json"
                                  "SM36"))))).
    reflexivity.
Defined.

Lemma Profile_init_fields_witness :
  Profile_init recorded_database (JArr []) "SM36" =
  ok (mkProfile (JStr "01.01.1990") (JStr "F") (JNum 1.7) (JNum 60)) /\
  Profile_init empty_database (JArr []) "SM36" = raise (KeyError "Date of Birth").
Proof.
  split.
  - apply (proj1 (Profile_init_fields recorded_database (JArr []) "SM36" eq_refl)).
    exists recorded_profile. repeat split; vm_compute; reflexivity.
  - apply (proj2 (Profile_init_fields empty_database (JArr []) "SM36" eq_refl) ∅);
      reflexivity.
Defined.

Lemma Session_init_channels_witness :
  (exists s, Session_init (JObj recorded_session) = ok s /\ accel_data s = None) /\
  Session_init (JObj (<["Duration"%string := JNum 2]>
                        {[ "Accelerometer sampling frequency"%string := JNum 50 ]})) =
  ok (mkSession (JNum 50) (JNum 2) None None) /\
  _get_single empty_database "011223120000" "SM36" =
  raise (KeyError "Accelerometer sampling frequency").
Proof.
  split; [|split].
  - assert (H : Session_init (JObj recorded_session) =
                ok (mkSession (JNum 50) (JNum 2) None
                      (Some (FloatArray [0; 1]%R, FloatArray [60; 61]%R))))
      by (vm_compute; reflexivity).
    eexists. split; [exact H|].
    apply (proj1 (Session_init_channels empty_database recorded_session) _ H).
    vm_compute. reflexivity.
  - apply (proj1 (proj2 (Session_init_channels empty_database _)));
      vm_compute; reflexivity.
  - apply (proj2 (proj2 (Session_init_channels empty_database ∅))). reflexivity.
Defined.

Lemma get_events_for_empty_witness :
  get_events_for empty_database "SM36" true = ok (JObj ∅) /\
  get_events_for empty_database "SM36" false = ok (JArr []).
Proof.
  split.
  - apply (proj1 (get_events_for_empty empty_database "SM36")). reflexivity.
  - apply (proj2 (get_events_for_empty empty_database "SM36")). reflexivity.
Defined.

Lemma get_session_for_list_witness :
  (exists r, get_session_for recorded_database "SM36" (SessionList ["011223120000"%string])
             = ok r) /\
  exists d,
    SessionDict (<["011223120000"%string :=
                     mkSession (JNum 50) (JNum 2) None
                       (Some (FloatArray [0; 1]%R, FloatArray [60; 61]%R))]> ∅)
    = SessionDict d /\
    forall x s, d !! x = Some s <->
                In x ["011223120000"%string] /\ _get_single recorded_database x "SM36" = ok s.
Proof.
  split.
  - apply (proj2 (get_session_for_list recorded_database "SM36" ["011223120000"%string])).
    intros x [<-|[]]. eexists. vm_compute. reflexivity.
  - apply (proj1 (get_session_for_list recorded_database "SM36" ["011223120000"%string])).
    vm_compute. reflexivity.
Defined.

Lemma User_init_dates_index_sessions_witness :
  exists user,
    User_init recorded_database (JArr [JStr "SM36"]) "SM36" = ok user /\
    user_name user = "SM36"%string /\
    ~ In "MetaData"%string (dates user) /\
    Sorted (le_of date_leb) (dates user) /\
    exists d,
      sessions user = SessionDict d /\
      (forall x, In x (dates user) <-> is_Some (d !! x)) /\
      (forall x s, d !! x = Some s -> _get_single recorded_database x "SM36" = ok s).
Proof.
  eexists. split; [vm_compute; reflexivity|].
  apply (User_init_dates_index_sessions recorded_database (JArr [JStr "SM36"]) "SM36").
  vm_compute. reflexivity.
Defined.

Lemma readable_dates_same_dates_witness :
  (exists dr,
     get_session_dates_for example_database "SM36" true = ok dr /\
     Permutation
       (map _lex ["150623080000"; "011223120000"; "010124120000"]%string) dr) /\
  get_session_dates_for empty_database "SM36" true = raise (KeyError "MetaData").
Proof.
  split.
  - apply (proj1 (readable_dates_same_dates example_database "SM36")).
    vm_compute. reflexivity.
  - apply (proj2 (readable_dates_same_dates empty_database "SM36")). reflexivity.
Defined.

End ReadingWitnesses.

(** ** Sorting and formatting dates *)

Section SortingMore.
Import sudep.

Lemma sorted_perm_eq (R : string -> string -> Prop) (l1 l2 : list string) :
  StronglySorted R l1 -> StronglySorted R l2 -> Permutation l1 l2 ->
  (forall a b, In a l1 -> In b l1 -> R a b -> R b a -> a = b) ->
  l1 = l2.
Proof.
  revert l2. induction l1 as [|a l1 IH]; intros l2 H1 H2 Hp Hanti.
  - apply Permutation_nil in Hp. now subst.
  - destruct l2 as [|b l2]; [now apply Permutation_sym, Permutation_nil in Hp|].
    apply StronglySorted_inv in H1 as [H1 Ha].
    apply StronglySorted_inv in H2 as [H2 Hb].
    rewrite List.Forall_forall in Ha, Hb.
    assert (a = b) as <-.
    { assert (Hain : In a (b :: l2)) by (apply (Permutation_in _ Hp); now left).
      assert (Hbin : In b (a :: l1))
        by (apply (Permutation_in _ (Permutation_sym Hp)); now left).
      destruct Hain as [->|Hain]; [reflexivity|].
      destruct Hbin as [->|Hbin]; [reflexivity|].
      apply Hanti; [now left | now right | now apply Ha | now apply Hb]. }
    f_equal. apply IH; auto.
    + now apply Permutation_cons_inv in Hp.
    + intros x y Hx Hy. apply Hanti; now right.
Qed.

Lemma date_le_transitive : Relations_1.Transitive (le_of date_leb).
Proof. intros a b c. apply date_leb_trans. Qed.

(** X14.  On 12-character dates the result of [_date_sort] does not
    depend on the order in which the dates arrive: two lists with the
    same dates, however arranged, are sorted to the same list.  The order
    in which a dictionary yields its keys therefore does not show. *)
Theorem date_sort_order_independent (l l' : list string) :
  Permutation l l' ->
  Forall (fun s => String.length s = 12%nat) l ->
  _date_sort l = _date_sort l'.
Proof.
  intros Hp Hlen. unfold _date_sort.
  assert (Hs : forall k, StronglySorted (le_of date_leb) (list_sort date_leb k)).
  { intros k. apply Sorted_StronglySorted; [exact date_le_transitive|].
    apply list_sort_sorted, date_leb_total. }
  apply (sorted_perm_eq (le_of date_leb)); auto.
  - rewrite <- (list_sort_perm date_leb l), <- (list_sort_perm date_leb l'). exact Hp.
  - rewrite List.Forall_forall in Hlen. intros a b Ha Hb Hab Hba.
    apply (Permutation_in _ (Permutation_sym (list_sort_perm date_leb l))) in Ha, Hb.
    apply date_key_inj; auto using date_leb_key_eq.
Qed.

Lemma filter_sort_insert (leb : string -> string -> bool) (P : string -> bool)
  (x : string) (l : list string) :
  (forall y, P x = true -> P y = true -> leb x y = true) ->
  List.filter P (sort_insert leb x l) = if P x then x :: List.filter P l else List.filter P l.
Proof.
  intros HP. induction l as [|y l IH]; simpl.
  - reflexivity.
  - destruct (leb x y) eqn:Hxy.
    + reflexivity.
    + change (List.filter P (y :: sort_insert leb x l))
        with (if P y then y :: List.filter P (sort_insert leb x l)
              else List.filter P (sort_insert leb x l)).
      rewrite IH. destruct (P x) eqn:Hx, (P y) eqn:Hy; try reflexivity.
      rewrite (HP y eq_refl Hy) in Hxy. discriminate.
Qed.

(** X15.  [_date_sort] is stable: the dates that share a sort key come
    out in the order in which they went in. *)
Theorem date_sort_stable (k : list string) (l : list string) :
  List.filter (same_key k) (_date_sort l) = List.filter (same_key k) l.
Proof.
  unfold _date_sort. induction l as [|x l IH]; [reflexivity|].
  cbn [list_sort]. rewrite filter_sort_insert.
  - rewrite IH. reflexivity.
  - intros y Hx Hy. unfold same_key in Hx, Hy. unfold date_leb.
    destruct (tuple_compare (date_key x) k) eqn:Ex; try discriminate.
    destruct (tuple_compare (date_key y) k) eqn:Ey; try discriminate.
    apply tuple_compare_eq in Ex, Ey. rewrite Ex, Ey.
    now rewrite tuple_compare_refl.
Qed.

(** X17.  On 12-character dates [_lex] gives 17 characters and loses
    nothing: two dates with the same readable form are the same date. *)
Theorem lex_injective (a b : string) :
  String.length a = 12%nat -> String.length b = 12%nat ->
  String.length (_lex a) = 17%nat /\ (_lex a = _lex b -> a = b).
Proof.
  intros Ha Hb.
  do 13 (destruct a as [|? a]; try discriminate Ha).
  do 13 (destruct b as [|? b]; try discriminate Hb).
  split; [reflexivity|].
  cbv. intros H. injection H as -> -> -> -> -> -> -> -> -> -> -> ->. reflexivity.
Qed.

(** Digits compare as their values. *)
Lemma digit_bounds (c : ascii) :
  is_digit c = true -> (48 <= N_of_ascii c <= 57)%N.
Proof.
  unfold is_digit, nat_of_ascii. intros H. apply andb_true_iff in H as [H1 H2].
  apply Nat.leb_le in H1, H2. lia.
Qed.

Lemma ascii_compare_digit (c d : ascii) :
  is_digit c = true -> is_digit d = true ->
  Ascii.compare c d = N.compare (digit c) (digit d).
Proof.
  intros Hc Hd. apply digit_bounds in Hc, Hd.
  unfold Ascii.compare, digit.
  destruct (N.compare_spec (N_of_ascii c) (N_of_ascii d));
    symmetry; [apply N.compare_eq_iff | apply N.compare_lt_iff
               | apply N.compare_gt_iff]; lia.
Qed.

(** Two-digit fields compare as their values, which are below 100. *)
Lemma field_compare (c1 c2 d1 d2 : ascii) :
  is_digit c1 = true -> is_digit c2 = true ->
  is_digit d1 = true -> is_digit d2 = true ->
  String.compare (String c1 (String c2 "")) (String d1 (String d2 "")) =
  N.compare (field_value (String c1 (String c2 "")))
            (field_value (String d1 (String d2 ""))).
Proof.
  intros H1 H2 H3 H4.
  cbn [String.compare field_value list_ascii_of_string fold_left].
  rewrite (ascii_compare_digit c1 d1), (ascii_compare_digit c2 d2) by assumption.
  apply digit_bounds in H1, H2, H3, H4. unfold digit.
  destruct (N.compare_spec (N_of_ascii c1 - 48) (N_of_ascii d1 - 48));
    [destruct (N.compare_spec (N_of_ascii c2 - 48) (N_of_ascii d2 - 48))|..];
    symmetry; try (apply N.compare_eq_iff; lia);
    try (apply N.compare_lt_iff; lia); apply N.compare_gt_iff; lia.
Qed.

Lemma field_value_bound (c1 c2 : ascii) :
  is_digit c1 = true -> is_digit c2 = true ->
  (field_value (String c1 (String c2 "")) < 100)%N.
Proof.
  intros H1 H2. apply digit_bounds in H1, H2.
  cbn [field_value list_ascii_of_string fold_left]. unfold digit. lia.
Qed.

(** Rows of numbers below 100 compare as the numbers they spell in base
    100. *)
Lemma base100_lt (u v : list N) (a b : N) :
  length u = length v -> Forall (fun x => x < 100)%N u -> (a < b)%N ->
  (fold_left (fun acc x => (100 * acc + x)%N) u a
   < fold_left (fun acc x => (100 * acc + x)%N) v b)%N.
Proof.
  revert v a b. induction u as [|x u IH]; intros [|y v] a b Hlen Hu Hab;
    try discriminate; [exact Hab|].
  cbn [fold_left]. inversion Hu; subst. apply IH; auto. lia.
Qed.

Lemma base100_compare (u v : list N) (a : N) :
  length u = length v ->
  Forall (fun x => x < 100)%N u -> Forall (fun x => x < 100)%N v ->
  N.compare (fold_left (fun acc x => (100 * acc + x)%N) u a)
            (fold_left (fun acc x => (100 * acc + x)%N) v a)
  = lex_compare u v.
Proof.
  revert v a. induction u as [|x u IH]; intros [|y v] a Hlen Hu Hv; try discriminate.
  - apply N.compare_refl.
  - inversion Hu; inversion Hv; subst. injection Hlen as Hlen.
    cbn [fold_left lex_compare].
    destruct (N.compare_spec x y) as [->| |].
    + now apply IH.
    + apply N.compare_lt_iff, base100_lt; auto. lia.
    + apply N.compare_gt_iff, base100_lt; auto. lia.
Qed.

(** The time of a token, read at its fixed places, is the number its
    sort key spells in base 100: the key of [_date_sort] holds the
    fields in the order year, month, day, hour, minute, second. *)
Lemma token_time_key (a : string) :
  String.length a = 12%nat ->
  token_time a =
  fold_left (fun acc x => (100 * acc + x)%N) (map field_value (date_key a)) 0%N.
Proof.
  intros Ha. do 13 (destruct a as [|? a]; try discriminate Ha).
  match goal with
  | |- context [date_key ?t] =>
      let k := eval cbv in (date_key t) in change (date_key t) with k
  end.
  unfold token_time, two_digits, calendar_number.
  cbn [String.substring map fold_left]. lia.
Qed.

(** On 12-digit tokens the comparison of [_date_sort] is the comparison
    of the times. *)
Lemma date_leb_token_time (a b : string) :
  is_date_token a = true -> is_date_token b = true ->
  date_leb a b = (token_time a <=? token_time b)%N.
Proof.
  unfold is_date_token. intros Ha Hb.
  apply andb_true_iff in Ha as [Ha Da]. apply andb_true_iff in Hb as [Hb Db].
  apply Nat.eqb_eq in Ha, Hb.
  rewrite (token_time_key a Ha), (token_time_key b Hb).
  do 13 (destruct a as [|? a]; try discriminate Ha).
  do 13 (destruct b as [|? b]; try discriminate Hb).
  cbn [forallb list_ascii_of_string] in Da, Db.
  repeat match goal with
         | H : _ && _ = true |- _ => apply andb_true_iff in H as [? H]
         end.
  unfold date_leb.
  do 2 match goal with
       | |- context [date_key ?t] =>
           let k := eval cbv in (date_key t) in change (date_key t) with k
       end.
  clear Ha Hb Da Db.
  cbn [tuple_compare map].
  rewrite !field_compare by assumption.
  rewrite N.leb_compare, base100_compare.
  - cbn [lex_compare]. reflexivity.
  - reflexivity.
  - repeat (constructor; [now apply field_value_bound|]). constructor.
  - repeat (constructor; [now apply field_value_bound|]). constructor.
Qed.

Lemma sorted_by_time (l : list string) :
  Forall (fun d => is_date_token d = true) l ->
  Sorted (le_of date_leb) l -> chronological token_time l.
Proof.
  unfold chronological. intros Hl Hs. induction Hs as [|a l Hs IH Hd]; [constructor|].
  inversion Hl as [|? ? Ha Hl']; subst. constructor; [now apply IH|].
  destruct Hd as [|b l Hab]; constructor.
  inversion Hl' as [|? ? Hb _]; subst.
  unfold le_of in Hab. rewrite (date_leb_token_time a b Ha Hb) in Hab.
  now apply N.leb_le.
Qed.

(** X16.  On 12-digit tokens the order of [_date_sort] is the order of
    time: the comparison of two tokens is the comparison of the numbers
    [yyMMddhhmmss] read at the fixed places of [ddMMyyhhmmss], and a list
    of tokens is returned with the same tokens, the earliest first and
    the most recent last, as the docstring says. *)
Theorem date_leb_chronological (l : list string) :
  Forall (fun d => is_date_token d = true) l ->
  (forall a b, In a l -> In b l ->
               date_leb a b = (token_time a <=? token_time b)%N) /\
  Permutation l (_date_sort l) /\
  chronological token_time (_date_sort l).
Proof.
  intros Hl. split; [|split].
  - rewrite List.Forall_forall in Hl. intros a b Ha Hb.
    apply date_leb_token_time; now apply Hl.
  - apply list_sort_perm.
  - apply sorted_by_time.
    + rewrite List.Forall_forall in Hl |- *. intros d Hd. apply Hl.
      exact (Permutation_in _ (Permutation_sym (list_sort_perm date_leb l)) Hd).
    + apply list_sort_sorted, date_leb_total.
Qed.

(** X27.  When the listing of a user holds the reserved key ['MetaData']
    and its other keys are 12-digit tokens, [get_session_dates_for]
    without [readable] returns those other keys, each once, without the
    reserved key, in the order of time. *)
Theorem session_dates_chronological (requests_get_json : string -> Py.result json)
  (user : string) (m : gmap string json) (meta : json) :
  requests_get_json (base_url ++ user ++ ".json?shallow=true")%string = Py.ok (JObj m) ->
  m !! "MetaData"%string = Some meta ->
  (forall d, d <> "MetaData"%string -> is_Some (m !! d) -> is_date_token d = true) ->
  exists ds,
    get_session_dates_for requests_get_json user false = Py.ok ds /\
    ~ In "MetaData"%string ds /\
    List.NoDup ds /\
    (forall d, In d ds <-> d <> "MetaData"%string /\ is_Some (m !! d)) /\
    chronological token_time ds.
Proof.
  intros Hget Hmeta Htok.
  exists (_date_sort (keys (delete "MetaData"%string m))).
  assert (Hkeys : forall d, In d (keys (delete "MetaData"%string m)) <->
                            d <> "MetaData"%string /\ is_Some (m !! d)).
  { intros d. unfold keys. rewrite in_map_iff. split.
    - intros ([d' v] & Hd & Hin). simpl in Hd. subst d'.
      apply list_elem_of_In, elem_of_map_to_list in Hin.
      apply lookup_delete_Some in Hin as [Hne Hin]. split; [congruence | eauto].
    - intros [Hne [v Hv]]. exists (d, v). split; [reflexivity|].
      apply list_elem_of_In, elem_of_map_to_list, lookup_delete_Some.
      split; [congruence | exact Hv]. }
  assert (Hperm : Permutation (keys (delete "MetaData"%string m))
                              (_date_sort (keys (delete "MetaData"%string m))))
    by apply list_sort_perm.
  split; [|split; [|split; [|split]]].
  - unfold get_session_dates_for, download_json_data_from.
    rewrite Hget. cbn [Py.bind Py.ok]. now rewrite Hmeta.
  - intros Hin. apply (Permutation_in _ (Permutation_sym Hperm)) in Hin.
    apply Hkeys in Hin. now destruct Hin.
  - apply (Permutation_NoDup Hperm). unfold keys.
    apply NoDup_ListNoDup, NoDup_fst_map_to_list.
  - intros d. rewrite <- Hkeys. split; intros Hin.
    + exact (Permutation_in _ (Permutation_sym Hperm) Hin).
    + exact (Permutation_in _ Hperm Hin).
  - apply sorted_by_time; [|apply list_sort_sorted, date_leb_total].
    apply List.Forall_forall. intros d Hd.
    apply (Permutation_in _ (Permutation_sym Hperm)), Hkeys in Hd as [Hne Hs].
    now apply Htok.
Qed.

Lemma date_leb_chronological_witness :
  (forall a b,
     In a ["011223120000"; "010124120000"]%string ->
     In b ["011223120000"; "010124120000"]%string ->
     date_leb a b = (token_time a <=? token_time b)%N) /\
  Permutation ["011223120000"; "010124120000"]%string
              (_date_sort ["011223120000"; "010124120000"]%string) /\
  chronological token_time (_date_sort ["011223120000"; "010124120000"]%string).
Proof.
  apply (date_leb_chronological ["011223120000"; "010124120000"]%string).
  repeat constructor.
Defined.

Lemma session_dates_chronological_witness :
  exists ds,
    get_session_dates_for example_database "SM36" false = Py.ok ds /\
    ~ In "MetaData"%string ds /\
    List.NoDup ds /\
    (forall d, In d ds <-> d <> "MetaData"%string /\ is_Some (example_listing !! d)) /\
    chronological token_time ds.
Proof.
  apply (session_dates_chronological example_database "SM36" example_listing (JBool true)).
  - reflexivity.
  - vm_compute. reflexivity.
  - intros d Hne [v Hv]. unfold example_listing in Hv.
    cbn [list_to_map foldr uncurry curry fst snd] in Hv.
    repeat (apply lookup_insert_Some in Hv as [[<- _]|[_ Hv]];
            [first [congruence | reflexivity]|]).
    rewrite lookup_empty in Hv. discriminate.
Defined.

Lemma date_sort_order_independent_witness :
  _date_sort ["010124120000"; "011223120000"]%string =
  _date_sort ["011223120000"; "010124120000"]%string.
Proof.
  apply (date_sort_order_independent ["010124120000"; "011223120000"]%string
           ["011223120000"; "010124120000"]%string).
  - apply perm_swap.
  - repeat constructor.
Defined.

Lemma lex_injective_witness :
  String.length (_lex "011223120000") = 17%nat /\
  (_lex "011223120000" = _lex "011223120000" -> "011223120000" = "011223120000")%string.
Proof.
  apply (lex_injective "011223120000" "011223120000"); reflexivity.
Defined.

End SortingMore.

(** ** Poincare dispersion and CSI beyond the clamp *)

Section DispersionMore.
Import Py.
Local Open Scope R_scope.

(** [CSI] index by index. *)
Lemma clamped_ratio_elementwise (sd1 sd2 : list R) :
  np.zip1 Rdiv (sudep_HRV.clamp_SD2 sd1 sd2) (sudep_HRV.clamp_SD1 sd1) =
  map (fun p => clamp_ratio (fst p) (snd p)) (combine sd1 sd2).
Proof.
  unfold np.zip1, sudep_HRV.clamp_SD2, sudep_HRV.clamp_SD1, np.mask_set, np.eq0.
  revert sd2. induction sd1 as [|s1 sd1 IH]; intros [|s2 sd2]; try reflexivity.
  cbn [map combine fst snd]. rewrite IH. f_equal.
  unfold clamp_ratio. now destruct (Req_dec_T s1 0).
Qed.

Lemma clamp_SD1_elementwise (sd1 : list R) :
  sudep_HRV.clamp_SD1 sd1 = map (fun s => if Req_dec_T s 0 then 1 else s) sd1.
Proof.
  unfold sudep_HRV.clamp_SD1, np.mask_set, np.eq0.
  induction sd1 as [|s sd1 IH]; [reflexivity|].
  cbn [map combine fst snd]. rewrite IH. now destruct (Req_dec_T s 0).
Qed.

Lemma std_over_sqrt2_nonneg (ddof : nat) (v : list R) : 0 <= np.std ddof v / sqrt 2.
Proof.
  unfold np.std. apply Rmult_le_pos; [apply sqrt_pos|].
  left. apply Rinv_0_lt_compat, Rlt_sqrt2_0.
Qed.

Lemma SD_nonneg (beats : list R) (w : Z) (sd1 sd2 : list R) :
  sudep_HRV.SD beats w = ok (sd1, sd2) ->
  Forall (fun s => 0 <= s) sd1 /\ Forall (fun s => 0 <= s) sd2.
Proof.
  unfold sudep_HRV.SD.
  destruct (sudep_HRV.windowed_beats beats w) as [e|wb]; [discriminate|].
  cbn [Py.bind sudep_HRV.means]. intros [= <- <-].
  unfold sudep_HRV.SD1, sudep_HRV.SD2, np.std_axis1.
  split; apply List.Forall_forall; intros s Hs;
    apply in_map_iff in Hs as (t & <- & Ht);
    apply in_map_iff in Ht as (row & <- & _); apply std_over_sqrt2_nonneg.
Qed.

Lemma clamp_ratio_nonneg (s1 s2 : R) : 0 <= s1 -> 0 <= s2 -> 0 <= clamp_ratio s1 s2.
Proof.
  intros H1 H2. unfold clamp_ratio. destruct (Req_dec_T s1 0) as [|Hne].
  - unfold Rdiv. rewrite Rinv_1. lra.
  - apply Rmult_le_pos; [exact H2|]. left. apply Rinv_0_lt_compat. lra.
Qed.

(** X18.  For a window of at least one sample, whenever [SD] returns,
    its values are not negative; the denominators [CSI] divides by, after
    the clamp, are never zero; and [CSI] returns one ratio per value of
    [SD], none of them negative. *)
Theorem CSI_well_defined (beats : list R) (w : Z) (sd1 sd2 : list R) :
  (1 <= w)%Z ->
  sudep_HRV.SD beats w = ok (sd1, sd2) ->
  Forall (fun s => 0 <= s) sd1 /\
  Forall (fun s => 0 <= s) sd2 /\
  Forall (fun d => d <> 0) (sudep_HRV.clamp_SD1 sd1) /\
  exists csi,
    sudep_HRV.CSI (sudep_HRV.BeatVector beats) w false = ok csi /\
    length csi = length sd1 /\
    Forall (fun r => 0 <= r) csi.
Proof.
  intros _ HSD. destruct (SD_nonneg _ _ _ _ HSD) as [H1 H2].
  split; [exact H1|]. split; [exact H2|]. split.
  - rewrite clamp_SD1_elementwise. apply List.Forall_forall. intros d Hd.
    apply in_map_iff in Hd as (s & <- & _).
    destruct (Req_dec_T s 0); lra.
  - unfold sudep_HRV.CSI. cbn [Py.bind ok]. rewrite HSD. cbv zeta.
    cbn [Py.bind fst snd]. eexists. split; [reflexivity|]. cbn [fst snd].
    rewrite clamped_ratio_elementwise. split.
    + pose proof (SD_lengths _ _ _ _ HSD) as Hl.
      rewrite length_map, length_combine, <- Hl. apply Nat.min_id.
    + rewrite List.Forall_forall in H1, H2.
      apply List.Forall_forall. intros r Hr.
      apply in_map_iff in Hr as ([s1 s2] & <- & Hin).
      apply clamp_ratio_nonneg.
      * apply H1. eapply in_combine_l, Hin.
      * apply H2. eapply in_combine_r, Hin.
Qed.

Lemma CSI_well_defined_witness :
  exists csi,
    sudep_HRV.CSI (sudep_HRV.BeatVector [1; 3; 1]) 2 false = ok csi /\
    length csi = 1%nat /\
    Forall (fun r => 0 <= r) csi.
Proof.
  apply (CSI_well_defined [1; 3; 1] 2
           (map (spec_SD1 0 [1; 3; 1] 2) (seq 0 1))
           (map (spec_SD2 0 [1; 3; 1] 2) (seq 0 1))).
  - lia.
  - apply (SD_values [1; 3; 1] 2 2); [lia | reflexivity].
Defined.

(** [l[k:]] for a non-negative [k]. *)
Lemma slice_from_skipn {A : Type} (l : list A) (k : nat) :
  slice_from l (Z.of_nat k) = skipn k l.
Proof.
  unfold slice_from, slice, slice_bound.
  destruct (Z.ltb_spec (Z.of_nat k) 0); [lia|].
  destruct (Z.ltb_spec (Z.of_nat (length l)) 0); [lia|].
  rewrite Z.min_id.
  destruct (Nat.le_gt_cases k (length l)) as [Hle|Hgt].
  - rewrite Z.min_l by lia. rewrite Nat2Z.id.
    apply firstn_all2. rewrite length_skipn. lia.
  - rewrite Z.min_r by lia. rewrite Nat2Z.id.
    rewrite !skipn_all2 by lia. now rewrite firstn_nil.
Qed.

(** X20.  When [times] and [beats] have one length [N] and the window
    [n] is between 1 and [N + 1], [plot_CSI] never hands [plot] two series
    of different lengths: it plots [times[n:]] against as many ratios,
    [N - n] of each. *)
Theorem plot_CSI_lengths (times beats : list R) (n : nat) :
  length times = length beats ->
  (1 <= n <= length beats + 1)%nat ->
  exists y,
    sudep_HRV.plot_CSI times beats (Z.of_nat n) = ok (skipn n times, y) /\
    length y = (length beats - n)%nat /\
    length (skipn n times) = (length beats - n)%nat.
Proof.
  intros Hlen [Hn HN].
  assert (H : (length beats + 1 - n + n = length beats + 1)%nat) by lia.
  unfold sudep_HRV.plot_CSI. rewrite (SD_values _ _ _ Hn H). cbv zeta.
  cbn [Py.bind ok fst snd]. rewrite slice_from_skipn.
  set (y := np.zip1 Rdiv _ _).
  assert (Hy : length y = (length beats - n)%nat).
  { unfold y, np.zip1. rewrite length_map, length_combine, !length_map, length_seq. lia. }
  assert (Hx : length (skipn n times) = (length beats - n)%nat)
    by (rewrite length_skipn; lia).
  rewrite Hx, Hy, Nat.eqb_refl. eauto.
Qed.

Lemma plot_CSI_lengths_witness :
  exists y,
    sudep_HRV.plot_CSI [0; 5; 10; 15] [0.8; 0.9; 0.8; 0.9] 2 = ok ([10; 15], y) /\
    length y = 2%nat /\
    length [10; 15] = 2%nat.
Proof.
  apply (plot_CSI_lengths [0; 5; 10; 15] [0.8; 0.9; 0.8; 0.9] 2); [reflexivity|].
  simpl. lia.
Defined.

Lemma slice_init_minus_one {A : Type} (l : list A) : slice l 0 (-1) = removelast l.
Proof.
  rewrite removelast_firstn_len. unfold slice, slice_bound.
  rewrite Z.ltb_irrefl. change (-1 <? 0)%Z with true. cbv iota.
  rewrite Z.min_l by lia. cbn [skipn Z.to_nat]. f_equal. lia.
Qed.

(** X21.  [plot_lorenz] plots every beat but the last against every
    beat but the first, two series of one length for every input, the
    empty one included; and for at least two beats [SD] with a window of
    [len(beats) - 1], as [_lorenz_ellipse] calls it, returns exactly one
    [SD1] and one [SD2]: those of these two series. *)
Theorem lorenz_plot_and_ellipse (beats : list R) :
  sudep_HRV.plot_lorenz beats = ok (removelast beats, tl beats) /\
  ((2 <= length beats)%nat ->
   let x := removelast beats in
   let y := tl beats in
   sudep_HRV.SD beats (Z.of_nat (length beats) - 1) =
   ok ([np.std 0 (map (fun ab => (fst ab - snd ab) + (np.mean y - np.mean x))
                      (combine x y)) / sqrt 2],
       [np.std 0 (map (fun ab => (fst ab + snd ab) - (np.mean x + np.mean y))
                      (combine x y)) / sqrt 2])).
Proof.
  split.
  - unfold sudep_HRV.plot_lorenz.
    change (slice_from beats 1%Z) with (slice_from beats (Z.of_nat 1)).
    rewrite slice_init_minus_one, slice_from_skipn.
    change (skipn 1 beats) with (tl beats).
    replace (length (removelast beats) =? length (tl beats))%nat with true;
      [reflexivity|].
    symmetry. apply Nat.eqb_eq.
    rewrite removelast_firstn_len, length_firstn. destruct beats; simpl; lia.
  - intros HN x y.
    replace (Z.of_nat (length beats) - 1)%Z with (Z.of_nat (length beats - 1)) by lia.
    rewrite (SD_values beats (length beats - 1) 2) by lia.
    cbn [Nat.pred seq map]. unfold spec_SD1, spec_SD2. cbv zeta.
    assert (Hx : window beats (length beats - 1) 0 = x).
    { unfold window, x. rewrite removelast_firstn_len. cbn [skipn]. f_equal. lia. }
    assert (Hy : window beats (length beats - 1) 1 = y).
    { unfold window, y. change (skipn 1 beats) with (tl beats).
      apply firstn_all2. destruct beats; simpl; lia. }
    now rewrite Hx, Hy.
Qed.

Lemma lorenz_plot_and_ellipse_witness :
  let x := removelast [1; 3; 1] in
  let y := tl [1; 3; 1] in
  sudep_HRV.SD [1; 3; 1] (Z.of_nat (length [1; 3; 1]) - 1) =
  ok ([np.std 0 (map (fun ab => (fst ab - snd ab) + (np.mean y - np.mean x))
                     (combine x y)) / sqrt 2],
      [np.std 0 (map (fun ab => (fst ab + snd ab) - (np.mean x + np.mean y))
                     (combine x y)) / sqrt 2]).
Proof.
  apply (proj2 (lorenz_plot_and_ellipse [1; 3; 1])). simpl. lia.
Defined.

End DispersionMore.

(** ** Windowed variance and moving average *)

Section VarianceMore.
Import Py.
Local Open Scope R_scope.

Lemma var_nonneg (ddof : nat) (v : list R) : 0 <= np.var ddof v.
Proof.
  unfold np.var. set (m := np.mean v). apply Rmult_le_pos.
  - clearbody m. unfold np.sum.
    induction v as [|a v IH]; cbn [map fold_right]; [lra|].
    apply Rplus_le_le_0_compat; [exact (Rle_0_sqr (a - m)) | exact IH].
  - destruct (length v - ddof)%nat as [|k] eqn:E.
    + cbn [INR]. rewrite Rinv_0. lra.
    + left. apply Rinv_0_lt_compat, lt_0_INR. lia.
Qed.

Lemma diff1_repeat (a : R) (N : nat) : np.diff1 (repeat a N) = repeat 0 (Nat.pred N).
Proof.
  induction N as [|[|N] IH]; try reflexivity.
  change (repeat a (S (S N))) with (a :: a :: repeat a N).
  rewrite diff1_cons2.
  change (a :: repeat a N) with (repeat a (S N)). rewrite IH.
  cbn [Nat.pred repeat]. f_equal. ring.
Qed.

(** X23.  A constant signal is flagged nowhere: for [N] samples of one
    value and a window between 1 and [N], the mask of [mark_high_var] is
    all false.  The differences, their mean and their variance are
    exactly zero in floating point as well. *)
Theorem constant_never_flagged (a : R) (N w : nat) :
  (1 <= w <= N)%nat ->
  sudep_pdf.is_above_thresh (repeat a N) (Z.of_nat w) = ok (repeat false (N - 1)).
Proof.
  intros [Hw HN].
  rewrite (is_above_thresh_values _ w (N + 1 - w)) by (rewrite ?repeat_length; lia).
  rewrite diff1_repeat. unfold sudep_pdf.find_high_variance. rewrite map_map.
  rewrite (map_ext_in _ (fun _ => false)).
  - rewrite map_const_repeat, length_seq, <- repeat_app. do 2 f_equal. lia.
  - intros i Hi. apply in_seq in Hi.
    rewrite window_repeat by lia. rewrite var_repeat_0.
    destruct (Rgt_dec 0 1); [lra | reflexivity].
Qed.

Lemma constant_never_flagged_witness :
  sudep_pdf.is_above_thresh (repeat 9.81 6) 3 = ok (repeat false 5).
Proof.
  apply (constant_never_flagged 9.81 6 3). lia.
Defined.

Lemma fold_Rmax_ge (l : list R) (a : R) :
  a <= fold_left Rmax l a /\ Forall (fun x => x <= fold_left Rmax l a) l.
Proof.
  revert a. induction l as [|b l IH]; intros a; cbn [fold_left].
  - split; [lra | constructor].
  - destruct (IH (Rmax a b)) as [H1 H2].
    pose proof (Rmax_l a b). pose proof (Rmax_r a b).
    split; [lra|]. constructor; [lra | exact H2].
Qed.

Lemma fold_Rmin_le (l : list R) (a : R) :
  fold_left Rmin l a <= a /\ Forall (fun x => fold_left Rmin l a <= x) l.
Proof.
  revert a. induction l as [|b l IH]; intros a; cbn [fold_left].
  - split; [lra | constructor].
  - destruct (IH (Rmin a b)) as [H1 H2].
    pose proof (Rmin_l a b). pose proof (Rmin_r a b).
    split; [lra|]. constructor; [lra | exact H2].
Qed.

(** The extremes are values of the array. *)
Lemma fold_Rmax_in (l : list R) (a : R) : In (fold_left Rmax l a) (a :: l).
Proof.
  revert a. induction l as [|b l IH]; intros a; cbn [fold_left]; [now left|].
  destruct (IH (Rmax a b)) as [H|H].
  - rewrite <- H. unfold Rmax. destruct (Rle_dec a b); [right; now left | now left].
  - right. now right.
Qed.

Lemma fold_Rmin_in (l : list R) (a : R) : In (fold_left Rmin l a) (a :: l).
Proof.
  revert a. induction l as [|b l IH]; intros a; cbn [fold_left]; [now left|].
  destruct (IH (Rmin a b)) as [H|H].
  - rewrite <- H. unfold Rmin. destruct (Rle_dec a b); [now left | right; now left].
  - right. now right.
Qed.

(** X24.  [variance_statistics] needs a signal longer than the window:
    with at most [window] samples there is no windowed variance and the
    maximum raises [ValueError].  With more, the four statistics are
    returned: the largest and the smallest are values of the windowed
    variance with every value between them, the other two are its mean
    and its variance, and neither the smallest variance nor the variance
    of the variances is negative.  The extremes are selections and the
    signs are those of sums of squares, in floating point as over the
    reals. *)
Theorem variance_statistics_bounds (signal : list R) (w : nat) :
  (1 <= w)%nat ->
  ((length signal <= w)%nat ->
   sudep_pdf.variance_statistics signal (Z.of_nat w) = raise ValueError) /\
  ((w < length signal)%nat ->
   exists var max_var min_var,
     sudep_pdf.windowed_sample_variance signal (Z.of_nat w) = ok var /\
     length var = (length signal - w)%nat /\
     sudep_pdf.variance_statistics signal (Z.of_nat w) =
     ok (max_var, min_var, np.mean var, np.var 0 var) /\
     In max_var var /\ In min_var var /\
     Forall (fun v => min_var <= v <= max_var) var /\
     0 <= min_var /\ 0 <= np.var 0 var).
Proof.
  intros Hw. unfold sudep_pdf.variance_statistics. split.
  - intros HN. destruct (Nat.le_gt_cases w (length signal + 1)) as [Hle|Hgt].
    + assert (H : (length signal + 1 - w + w = length signal + 1)%nat) by lia.
      rewrite (windowed_sample_variance_values signal w _ Hw H).
      replace (Nat.pred (length signal + 1 - w)) with 0%nat by lia. reflexivity.
    + now rewrite windowed_sample_variance_too_short by lia.
  - intros HN.
    assert (H : (length signal + 1 - w + w = length signal + 1)%nat) by lia.
    rewrite (windowed_sample_variance_values signal w _ Hw H).
    set (var := map _ _).
    assert (Hvar : Forall (fun v => 0 <= v) var).
    { apply List.Forall_forall. intros v Hv. apply in_map_iff in Hv as (i & <- & _).
      apply var_nonneg. }
    assert (Hlen : length var = (length signal - w)%nat).
    { unfold var. rewrite length_map, length_seq. lia. }
    exists var. destruct var as [|v0 var'] eqn:Evar; [cbn [length] in Hlen; lia|].
    cbn [Py.bind ok np.amax np.amin]. eexists _, _.
    split; [reflexivity|]. split; [exact Hlen|]. split; [reflexivity|].
    destruct (fold_Rmax_ge var' v0) as [Hmax0 Hmax].
    destruct (fold_Rmin_le var' v0) as [Hmin0 Hmin].
    split; [apply fold_Rmax_in|]. split; [apply fold_Rmin_in|]. split; [|split].
    + constructor; [lra|].
      rewrite List.Forall_forall in Hmax, Hmin. apply List.Forall_forall.
      intros x Hx. split; [now apply Hmin | now apply Hmax].
    + rewrite List.Forall_forall in Hvar. apply Hvar, fold_Rmin_in.
    + apply var_nonneg.
Qed.

Lemma variance_statistics_bounds_witness :
  sudep_pdf.variance_statistics [1; 2; 4] 3 = raise ValueError /\
  exists var max_var min_var,
    sudep_pdf.windowed_sample_variance [1; 2; 4; 8] 2 = ok var /\
    length var = 2%nat /\
    sudep_pdf.variance_statistics [1; 2; 4; 8] 2 =
    ok (max_var, min_var, np.mean var, np.var 0 var) /\
    In max_var var /\ In min_var var /\
    Forall (fun v => min_var <= v <= max_var) var /\
    0 <= min_var /\ 0 <= np.var 0 var.
Proof.
  split.
  - apply (proj1 (variance_statistics_bounds [1; 2; 4] 3 ltac:(lia))). simpl. lia.
  - apply (proj2 (variance_statistics_bounds [1; 2; 4; 8] 2 ltac:(lia))). simpl. lia.
Defined.

(** The transposed index grid of [moving_average] and
    [windowed_sample_variance]: row [j] holds [j, j + 1, ...]. *)
Lemma transpose_index_grid (m n : nat) :
  np.transpose
    (np.Array2 n (map (fun i => map (fun j => Z.of_nat (i + j)) (seq 0 n)) (seq 0 m))) =
  np.Array2 m (map (fun j => map (fun i => Z.of_nat (j + i)) (seq 0 m)) (seq 0 n)).
Proof.
  unfold np.transpose, np.a_nrows. cbn [np.a_rows np.a_ncols].
  rewrite length_map, length_seq. f_equal.
  apply map_ext_in. intros j Hj. apply in_seq in Hj.
  apply (column_map _ (fun i => Z.of_nat (j + i))).
  intros i Hi. apply in_seq in Hi.
  rewrite nth_error_map, nth_error_seq.
  destruct (Nat.ltb_spec j n); [|lia]. simpl. do 2 f_equal. lia.
Qed.

Lemma take_runs (row : list R) (m n : nat) :
  (m = 0 \/ m + n <= length row + 1)%nat ->
  np.take row
    (np.Array2 m (map (fun j => map (fun i => Z.of_nat (j + i)) (seq 0 m)) (seq 0 n))) =
  ok (np.Array2 m (map (window row m) (seq 0 n))).
Proof.
  intros H. unfold np.take. cbn [np.a_rows np.a_ncols].
  rewrite (mapM_ok_map _ _ (window row m)); [reflexivity|].
  intros j Hj. apply in_seq in Hj. destruct H as [->|H].
  - reflexivity.
  - apply mapM_item_window. lia.
Qed.

Lemma mean_axis0_runs (row : list R) (m n : nat) :
  (m + n <= length row + 1)%nat ->
  np.mean_axis0 (np.Array2 m (map (window row m) (seq 0 n))) =
  map (fun i => np.mean (window row n i)) (seq 0 m).
Proof.
  intros H. unfold np.mean_axis0, np.transpose. cbn [np.a_rows np.a_ncols].
  rewrite map_map. apply map_ext_in. intros i Hi. apply in_seq in Hi.
  f_equal. apply column_windows; lia.
Qed.

Lemma div_windows_fit (L n : nat) :
  (1 <= n)%nat -> (L / n = 0 \/ L / n + n <= L + 1)%nat.
Proof.
  intros Hn. destruct (L / n)%nat as [|k] eqn:E; [now left|]. right.
  pose proof (Nat.Div0.mul_div_le L n) as Hle. rewrite E in Hle. nia.
Qed.

(** X25.  [moving_average] with a window of [n >= 1] samples returns,
    for every row of [L] samples, the means of the [n] samples from each
    of the indices [0, ..., L / n - 1]: the windows advance by one sample
    and there are [L / n] of them, so the samples from index
    [L / n + n - 1] on are not used.  A window of 0 raises
    [ZeroDivisionError], a signal without a row [IndexError]. *)
Theorem moving_average_windows (signal : np.array2 R) :
  (np.a_rows signal = [] ->
   forall n, sudep_pdf.moving_average signal n = sudep_pdf.Divided (raise IndexError)) /\
  (np.a_rows signal <> [] ->
   sudep_pdf.moving_average signal 0 = sudep_pdf.ZeroDivisionError) /\
  (forall n : nat,
     rectangular signal -> np.a_rows signal <> [] -> (1 <= n)%nat ->
     sudep_pdf.moving_average signal (Z.of_nat n) =
     sudep_pdf.Divided
       (ok (np.Array2 (np.a_ncols signal / n)
              (map (fun row => map (fun i => np.mean (window row n i))
                                   (seq 0 (np.a_ncols signal / n)))
                   (np.a_rows signal))))).
Proof.
  unfold sudep_pdf.moving_average. split; [|split].
  - now intros ->.
  - destruct (np.a_rows signal); [congruence | reflexivity].
  - intros n Hrect Hne Hn. unfold rectangular in Hrect.
    destruct (np.a_rows signal) as [|row0 rows] eqn:Erows; [congruence|].
    assert (H0 : length row0 = np.a_ncols signal) by now inversion Hrect.
    destruct (Z.eqb_spec (Z.of_nat n) 0); [lia|]. f_equal.
    rewrite H0, <- Nat2Z.inj_div, mgrid_of_nat. cbn [Py.bind ok].
    rewrite sum_grids_of_nat, transpose_index_grid. cbn [np.a_ncols].
    set (L := np.a_ncols signal) in *.
    rewrite <- (map_id (row0 :: rows)) at 1.
    rewrite (mapM_ok_map _ _ (fun row => map (fun i => np.mean (window row n i))
                                            (seq 0 (L / n)))).
    + reflexivity.
    + intros row Hrow. rewrite List.Forall_forall in Hrect.
      pose proof (Hrect row Hrow) as Hlen.
      pose proof (div_windows_fit L n Hn) as Hfit.
      rewrite take_runs by (rewrite Hlen; exact Hfit). cbn [Py.bind ok]. f_equal.
      destruct Hfit as [Hz|Hfit].
      * rewrite Hz. reflexivity.
      * apply mean_axis0_runs. rewrite Hlen. exact Hfit.
Qed.

Lemma moving_average_windows_witness :
  sudep_pdf.moving_average (np.Array2 5 [[1; 2; 3; 4; 5]; [0; 0; 6; 0; 0]]) 2 =
  sudep_pdf.Divided
    (ok (np.Array2 (5 / 2)
           (map (fun row => map (fun i => np.mean (window row 2 i)) (seq 0 (5 / 2)))
                [[1; 2; 3; 4; 5]; [0; 0; 6; 0; 0]]))).
Proof.
  apply (proj2 (proj2 (moving_average_windows
                         (np.Array2 5 [[1; 2; 3; 4; 5]; [0; 0; 6; 0; 0]]))) 2%nat).
  - repeat constructor.
  - discriminate.
  - lia.
Defined.

End VarianceMore.

(** ** Sessions without a channel *)

Section Channels.
Import Py sudep.

(** X26.  A session built from a response without accelerometer data is
    no error, but [unpack_accel_from] does not test the sentinel: on such
    a session, and only on such a session, it raises [TypeError]. *)
Theorem unpack_accel_needs_channel (m : gmap string json) (s : Session) :
  Session_init (JObj m) = ok s ->
  (sudep_pdf_session.unpack_accel_from s = raise TypeError <->
   m !! "Accelerometer data"%string = None).
Proof.
  intros Hs. destruct (Session_init_ok m s Hs) as (_ & _ & Ha & _).
  rewrite <- Ha. unfold sudep_pdf_session.unpack_accel_from.
  destruct (accel_data s) as [[[x y] z]|]; split; intros H;
    [discriminate | discriminate | reflexivity | reflexivity].
Qed.

Lemma unpack_accel_needs_channel_witness :
  sudep_pdf_session.unpack_accel_from
    (mkSession (JNum 50) (JNum 2) None (Some (FloatArray [0; 1]%R, FloatArray [60; 61]%R)))
  = raise TypeError <->
  recorded_session !! "Accelerometer data"%string = None.
Proof.
  apply (unpack_accel_needs_channel recorded_session). vm_compute. reflexivity.
Defined.

End Channels.
